(** * Express + Better Auth starter: environment loading, database start-up,
      authentication middleware and health probes

    A shallow embedding of the TypeScript sources
      - [src/utils/envConfig.ts]            (module [EnvConfig])
      - the second environment module       (module [ConfigEnv])
      - [config/database] ([connectDb])     (module [Database])
      - [index.ts] ([startServer])          (module [Server])
      - [middlewares] ([authenticateUser])  (module [AuthMiddleware])
      - [routes/health.routes.ts]           (module [Health])
      - [helpers/auth/auth.ts]              (module [AuthConfig])
    followed by the properties checked against them. *)

From Stdlib Require Import ZArith QArith Qcanon Ascii String List Bool Lia.
From stdpp Require Import base option numbers strings pretty list gmap.

Set Warnings "-register-all".

Local Open Scope string_scope.
Local Open Scope Z_scope.

(* ===================================================================== *)
(** ** JavaScript values used by the sources *)
(* ===================================================================== *)

Module Js.

(** JSON bodies handed to [res.json].  Numbers are rationals: they stand
    for the doubles of [process.uptime()] and [Date.now()]. *)
Inductive json : Type :=
| JNull
| JBool (b : bool)
| JNum (q : Qc)
| JStr (s : string)
| JObj (fields : list (string * json)).

(** [obj.key] on a JSON object: the first binding of [key]. *)
Fixpoint field (key : string) (fields : list (string * json)) : option json :=
  match fields with
  | [] => None
  | (k, v) :: rest => if String.eqb k key then Some v else field key rest
  end.

Definition get (key : string) (body : json) : option json :=
  match body with
  | JObj fields => field key fields
  | _ => None
  end.

(** A value of type [string | undefined]; [None] is [undefined]. *)
Definition truthy (v : option string) : bool :=
  match v with
  | Some s => negb (String.eqb s "")
  | None => false
  end.

(** [a || b] on [string | undefined] operands. *)
Definition or (a b : option string) : option string :=
  if truthy a then a else b.

(** StrWhiteSpaceChar, for the code units below 256 that a [string] of
    this development can hold: TAB, LF, VT, FF, CR, SP and NBSP. *)
Definition is_white_space (c : ascii) : bool :=
  let n := Z.of_N (N_of_ascii c) in
  ((9 <=? n) && (n <=? 13)) || (n =? 32) || (n =? 160).

Fixpoint trim_start (s : string) : string :=
  match s with
  | String c rest => if is_white_space c then trim_start rest else s
  | EmptyString => EmptyString
  end.

Definition digit_of (c : ascii) : option Z :=
  let n := Z.of_N (N_of_ascii c) in
  if (48 <=? n) && (n <=? 57) then Some (n - 48) else None.

(** The longest prefix of radix-10 digits. *)
Fixpoint digits_prefix (s : string) : list Z :=
  match s with
  | String c rest =>
      match digit_of c with
      | Some d => d :: digits_prefix rest
      | None => []
      end
  | EmptyString => []
  end.

Definition digits_value (ds : list Z) : Z :=
  fold_left (fun acc d => 10 * acc + d) ds 0.

(** [parseInt(s, 10)]; [None] is [NaN].  The result is the mathematical
    integer: the double that JavaScript returns compares with 0 and 65535
    the same way, rounding being monotone and both bounds representable
    (and [-0], the value of [parseInt("-0", 10)], is 0 here). *)
Definition parseInt10 (s : string) : option Z :=
  let t := trim_start s in
  let '(sign, u) :=
    match t with
    | String "-" rest => (-1, rest)
    | String "+" rest => (1, rest)
    | _ => (1, t)
    end in
  match digits_prefix u with
  | [] => None
  | ds => Some (sign * digits_value ds)
  end.

(** [a || d] where [d] is a string literal that is not empty, or where
    the result is only used as a string. *)
Definition or_str (a : option string) (d : string) : string :=
  match a with
  | Some s => if String.eqb s "" then d else s
  | None => d
  end.

(** [s.split(',')] *)
Fixpoint split_comma_aux (cur : string) (s : string) : list string :=
  match s with
  | EmptyString => [cur]
  | String c rest =>
      if Ascii.eqb c ","
      then cur :: split_comma_aux "" rest
      else split_comma_aux (cur +:+ String c "") rest
  end.

Definition split_comma (s : string) : list string := split_comma_aux "" s.

(** [parts.join(',')], the inverse of [split(',')]; it is used to state what
    [split_comma] keeps of its argument. *)
Fixpoint join_comma (parts : list string) : string :=
  match parts with
  | [] => ""
  | [p] => p
  | p :: rest => p +:+ "," +:+ join_comma rest
  end.

End Js.

(* ===================================================================== *)
(** ** Thrown values and the outcome of a fallible computation *)
(* ===================================================================== *)

(** Modelled from the spec: the class [ErrorResponse] of
    [middlewares/responseHandler], whose file is not among the sources.  It
    carries a message, a caller-supplied status code and optional detail,
    and serializes with [success] always false. *)
Record ErrorResponse : Type := mkErrorResponse {
  message : string;
  statusCode : Z;
  data : option Js.json
}.

(** What a [catch (error)] clause can receive: an instance of the
    application's [ErrorResponse], or anything else (a plain [Error], a
    library error, ...), of which only the message is kept. *)
Inductive exn : Type :=
| AppError (e : ErrorResponse)
| OtherError (msg : string).

(** [error instanceof ErrorResponse] *)
Definition instanceof_ErrorResponse (e : exn) : bool :=
  match e with
  | AppError _ => true
  | OtherError _ => false
  end.

Inductive outcome (A : Type) : Type :=
| Ok (a : A)
| Throw (e : exn).
Arguments Ok {A} a.
Arguments Throw {A} e.

#[global] Instance outcome_ret : MRet outcome := fun _ a => Ok a.
#[global] Instance outcome_bind : MBind outcome := fun _ _ f m =>
  match m with
  | Ok a => f a
  | Throw e => Throw e
  end.

Definition is_Throw {A} (m : outcome A) : bool :=
  match m with
  | Ok _ => false
  | Throw _ => true
  end.

(** [process.env]: a map from names to strings; an absent name reads as
    [undefined]. *)
Abbreviation Env := (gmap string string).

(* ===================================================================== *)
(** ** [src/utils/envConfig.ts] *)
(* ===================================================================== *)

Module EnvConfig.

Definition getEnvVariable (key : string) (defaultValue : option string)
    (env : Env) : outcome string :=
  let value := Js.or (env !! key) defaultValue in
  if negb (Js.truthy value)
  then Throw (OtherError
         ("Environment variable " +:+ key +:+ " is required but not defined"))
  else Ok (default "" value).

Definition getPort (env : Env) : outcome Z :=
  let port := Js.or_str (env !! "PORT") "5000" in
  let parsedPort := Js.parseInt10 port in
  match parsedPort with
  | None =>
      Throw (OtherError ("Invalid PORT value: " +:+ port +:+
                         ". Must be a number between 0 and 65535"))
  | Some n =>
      if (n <? 0) || (n >? 65535)
      then Throw (OtherError ("Invalid PORT value: " +:+ port +:+
                              ". Must be a number between 0 and 65535"))
      else Ok n
  end.

(** The right-hand side of [export const SMTP_FROM]. *)
Definition SMTP_FROM_of (env : Env) : option string :=
  Js.or (env !! "SMTP_FROM") (env !! "SMTP_USER").

Record Config : Type := mkConfig {
  PORT : Z;
  NODE_ENV : string;
  MONGO_URI : string;
  ALLOWED_ORIGINS : list string;
  RATE_LIMIT_WINDOW_MS : option Z;
  RATE_LIMIT_MAX_REQUESTS : option Z;
  SMTP_HOST : string;
  SMTP_PORT : string;
  SMTP_SECURE : string;
  SMTP_USER : string;
  SMTP_PASS : string;
  SMTP_FROM : option string;
  BETTER_AUTH_SECRET : string;
  BETTER_AUTH_URL : string;
  FRONTEND_URL : string
}.

(** Evaluation of the module body, top to bottom; the first [throw]
    aborts it. *)
Definition load (env : Env) : outcome Config :=
  port ← getPort env;
  let node_env := Js.or_str (env !! "NODE_ENV") "development" in
  mongo_uri ← getEnvVariable "MONGO_URI" None env;
  let allowed_origins :=
    if Js.truthy (env !! "ALLOWED_ORIGINS")
    then Js.split_comma (default "" (env !! "ALLOWED_ORIGINS"))
    else ["http://localhost:3000"; "http://localhost:3001"] in
  let window_ms :=
    Js.parseInt10 (Js.or_str (env !! "RATE_LIMIT_WINDOW_MS") "900000") in
  let max_requests :=
    Js.parseInt10 (Js.or_str (env !! "RATE_LIMIT_MAX_REQUESTS") "400") in
  let smtp_host := Js.or_str (env !! "SMTP_HOST") "smtp.gmail.com" in
  let smtp_port := Js.or_str (env !! "SMTP_PORT") "587" in
  let smtp_secure := Js.or_str (env !! "SMTP_SECURE") "false" in
  let smtp_user := Js.or_str (env !! "SMTP_USER") "" in
  let smtp_pass := Js.or_str (env !! "SMTP_PASS") "" in
  let smtp_from := SMTP_FROM_of env in
  secret ← getEnvVariable "BETTER_AUTH_SECRET" None env;
  let auth_url :=
    Js.or_str (env !! "BETTER_AUTH_URL") ("http://localhost:" +:+ pretty port) in
  let frontend_url := Js.or_str (env !! "FRONTEND_URL") "http://localhost:3000" in
  mret (mkConfig port node_env mongo_uri allowed_origins window_ms
          max_requests smtp_host smtp_port smtp_secure smtp_user smtp_pass
          smtp_from secret auth_url frontend_url).

(** The names read through [getEnvVariable] without a default. *)
Definition required : list string := ["MONGO_URI"; "BETTER_AUTH_SECRET"].

End EnvConfig.

(* ===================================================================== *)
(** ** The second environment module (imported as [config/env]) *)
(* ===================================================================== *)

Module ConfigEnv.

(** [defaultValue: string = ""]: a call without the second argument gets
    the empty string. *)
Definition getEnvVariable (key : string) (defaultValue : option string)
    (env : Env) : outcome string :=
  let defaultValue := default "" defaultValue in
  let value := Js.or_str (env !! key) defaultValue in
  if String.eqb value ""
  then Throw (OtherError
         ("Environment variable " +:+ key +:+ " is required but not defined"))
  else Ok value.

(** The right-hand side of [export const SMTP_FROM]. *)
Definition SMTP_FROM_of (env : Env) : outcome string :=
  getEnvVariable "SMTP_FROM" (Some "noreply@yourapp.com") env.

Record Config : Type := mkConfig {
  PORT : string;
  NODE_ENV : string;
  MONGO_URI : string;
  ALLOWED_ORIGINS : list string;
  RATE_LIMIT_WINDOW_MS : option Z;
  RATE_LIMIT_MAX_REQUESTS : option Z;
  SMTP_HOST : string;
  SMTP_PORT : option Z;
  SMTP_SECURE : bool;
  SMTP_USER : string;
  SMTP_PASS : string;
  SMTP_FROM : string;
  BETTER_AUTH_SECRET : string;
  BETTER_AUTH_URL : string;
  FRONTEND_URL : string;
  GITHUB_CLIENT_ID : string;
  GITHUB_CLIENT_SECRET : string;
  GOOGLE_CLIENT_ID : string;
  GOOGLE_CLIENT_SECRET : string
}.

Definition load (env : Env) : outcome Config :=
  port ← getEnvVariable "PORT" (Some "5000") env;
  node_env ← getEnvVariable "NODE_ENV" (Some "development") env;
  mongo_uri ← getEnvVariable "MONGO_URI"
                (Some "mongodb://localhost:27017/your-database-name") env;
  origins ← getEnvVariable "ALLOWED_ORIGINS"
              (Some "http://localhost:3000,http://localhost:3001") env;
  window_ms ← getEnvVariable "RATE_LIMIT_WINDOW_MS" (Some "900000") env;
  max_requests ← getEnvVariable "RATE_LIMIT_MAX_REQUESTS" (Some "400") env;
  smtp_host ← getEnvVariable "SMTP_HOST" (Some "smtp.gmail.com") env;
  smtp_port ← getEnvVariable "SMTP_PORT" (Some "587") env;
  smtp_secure ← getEnvVariable "SMTP_SECURE" (Some "false") env;
  smtp_user ← getEnvVariable "SMTP_USER" None env;
  smtp_pass ← getEnvVariable "SMTP_PASS" None env;
  smtp_from ← SMTP_FROM_of env;
  secret ← getEnvVariable "BETTER_AUTH_SECRET" None env;
  auth_url ← getEnvVariable "BETTER_AUTH_URL" (Some "http://localhost:5000") env;
  frontend_url ← getEnvVariable "FRONTEND_URL" (Some "http://localhost:3000") env;
  github_id ← getEnvVariable "GITHUB_CLIENT_ID" (Some "") env;
  github_secret ← getEnvVariable "GITHUB_CLIENT_SECRET" (Some "") env;
  google_id ← getEnvVariable "GOOGLE_CLIENT_ID" (Some "") env;
  google_secret ← getEnvVariable "GOOGLE_CLIENT_SECRET" (Some "") env;
  mret (mkConfig port node_env mongo_uri (Js.split_comma origins)
          (Js.parseInt10 window_ms) (Js.parseInt10 max_requests)
          smtp_host (Js.parseInt10 smtp_port) (String.eqb smtp_secure "true")
          smtp_user smtp_pass smtp_from secret auth_url frontend_url
          github_id github_secret google_id google_secret).

(** The names read through [getEnvVariable] without a default. *)
Definition required : list string :=
  ["SMTP_USER"; "SMTP_PASS"; "BETTER_AUTH_SECRET"].

End ConfigEnv.

(* ===================================================================== *)
(** ** The process: console, exit, and what the start-up code does to it *)
(* ===================================================================== *)

(** The texts written to the console are kept without the pictograph that
    starts them in the sources. *)

(** The first argument of [app.listen]: a number in one environment module,
    a string in the other. *)
Inductive port_arg : Type :=
| PortNumber (n : Z)
| PortString (s : string).

Inductive event : Type :=
| EvLog (msg : string)
| EvError (msg : string) (error : exn)
| EvConnect (url : string)
| EvClose
| EvListen (port : port_arg)
| EvOn (name : string)
| EvExit (code : Z).

Record world : Type := mkWorld {
  trace : list event;        (* what the process did, oldest first *)
  connect_calls : nat        (* calls of [mongoose.connect] so far *)
}.

Definition emit (ev : event) (w : world) : world :=
  mkWorld (trace w ++ [ev]) (connect_calls w).

(** How a piece of code ends: it returns, it throws, or the process is gone
    ([process.exit]). *)
Inductive completion (A : Type) : Type :=
| Returned (a : A)
| Raised (e : exn)
| Exited (code : Z).
Arguments Returned {A} a.
Arguments Raised {A} e.
Arguments Exited {A} code.

Definition Proc (A : Type) : Type := world → completion A * world.

Definition ret {A} (a : A) : Proc A := λ w, (Returned a, w).

Definition bind {A B} (m : Proc A) (k : A → Proc B) : Proc B := λ w,
  match m w with
  | (Returned a, w') => k a w'
  | (Raised e, w') => (Raised e, w')
  | (Exited c, w') => (Exited c, w')
  end.

Notation "'do' x <- m ; k" := (bind m (λ x, k))
  (at level 10, x name, m at level 100, k at level 200).
Notation "m ;; k" := (bind m (λ _, k))
  (at level 100, k at level 200, right associativity).

Definition throw {A} (e : exn) : Proc A := λ w, (Raised e, w).

(** [try { m } catch (error) { h error }] *)
Definition try_catch {A} (m : Proc A) (h : exn → Proc A) : Proc A := λ w,
  match m w with
  | (Raised e, w') => h e w'
  | r => r
  end.

Definition console_log (msg : string) : Proc unit := λ w,
  (Returned tt, emit (EvLog msg) w).

Definition console_error (msg : string) (error : exn) : Proc unit := λ w,
  (Returned tt, emit (EvError msg error) w).

Definition process_exit {A} (code : Z) : Proc A := λ w,
  (Exited code, emit (EvExit code) w).

Definition process_on (name : string) : Proc unit := λ w,
  (Returned tt, emit (EvOn name) w).

Definition is_listen (ev : event) : bool :=
  match ev with
  | EvListen _ => true
  | _ => false
  end.

Definition is_connect (ev : event) : bool :=
  match ev with
  | EvConnect _ => true
  | _ => false
  end.

(** The process has bound a network port. *)
Definition binds_port (t : list event) : bool := existsb is_listen t.

(** Number of connection attempts in a trace. *)
Definition connect_attempts (t : list event) : nat :=
  length (List.filter is_connect t).

Definition initial_world : world := mkWorld [] 0.

(* ===================================================================== *)
(** ** [config/database]: [connectDb], [disconnectDb] *)
(* ===================================================================== *)

Module Database.
Section Mongoose.

(** The driver: what the [n]-th call of [mongoose.connect] does for a
    given URL, the name of the connected database, and what
    [mongoose.connection.close] does. *)
Variable connect_result : nat → string → outcome unit.
Variable connection_name : string.
Variable close_result : outcome unit.

Definition mongoose_connect (dbUrl : string) : Proc unit := λ w,
  let w' := mkWorld (trace w ++ [EvConnect dbUrl]) (S (connect_calls w)) in
  match connect_result (connect_calls w) dbUrl with
  | Ok _ => (Returned tt, w')
  | Throw e => (Raised e, w')
  end.

Definition mongoose_connection_close : Proc unit := λ w,
  match close_result with
  | Ok _ => (Returned tt, emit EvClose w)
  | Throw e => (Raised e, emit EvClose w)
  end.

Definition connectDb (dbUrl : string) : Proc unit :=
  try_catch
    (mongoose_connect dbUrl ;;
     console_log "MongoDB connected successfully!" ;;
     console_log ("Database: " +:+ connection_name))
    (λ error,
       console_error "Error connecting to MongoDB:" error ;;
       process_exit 1).

Definition disconnectDb : Proc unit :=
  try_catch
    (mongoose_connection_close ;;
     console_log "MongoDB disconnected gracefully")
    (λ error, console_error "Error disconnecting from MongoDB:" error).

(** The handler that the module registers with [process.on("SIGINT", ...)]:
    it has no [try]. *)
Definition sigint_handler : Proc unit :=
  mongoose_connection_close ;;
  console_log "Mongoose connection closed due to application termination" ;;
  process_exit 0.

End Mongoose.
End Database.

(* ===================================================================== *)
(** ** [index.ts]: [startServer], after the environment module is loaded *)
(* ===================================================================== *)

Module Server.
Section StartServer.

(** [createApp] of [app.ts] is not among the sources: any code. *)
Variable App : Type.
Variable createApp : Proc App.

(** What the call [app.listen(port, callback)] does before it returns, for
    each port argument: it returns the server, or it throws (Node refuses
    some port arguments at once, with ERR_SOCKET_BAD_PORT).  Failures that
    Node reports later, through the server's error event, are not part of
    the call. *)
Variable listen_result : port_arg → outcome unit.

(** The environment module imported by [index.ts], and its [PORT]. *)
Variable Config : Type.
Variable loadEnv : Env → outcome Config.
Variable PORT : Config → port_arg.

(** [app.listen(PORT, callback)]: the callback only logs, later.  The port
    is bound, and [EvListen] recorded, only when the call returns. *)
Definition app_listen (app : App) (port : port_arg) : Proc unit := λ w,
  match listen_result port with
  | Ok _ => (Returned tt, emit (EvListen port) w)
  | Throw e => (Raised e, w)
  end.

(** [setupGracefulShutdown(server)] registers four handlers. *)
Definition setupGracefulShutdown (server : unit) : Proc unit :=
  process_on "SIGTERM" ;;
  process_on "SIGINT" ;;
  process_on "uncaughtException" ;;
  process_on "unhandledRejection".

Definition startServer (cfg : Config) : Proc unit :=
  try_catch
    (console_log "Starting server..." ;;
     do app <- createApp;
     do server <- app_listen app (PORT cfg);
     setupGracefulShutdown server)
    (λ error,
       console_error "Failed to start server:" error ;;
       process_exit 1).

(** The program: the imports are evaluated first, so an exception of the
    environment module is uncaught and ends the process before
    [startServer] is called.  Of the imports only the environment module,
    the first one, is evaluated here; what the modules after it do when
    they are imported is not part of this definition. *)
Definition program (env : Env) : Proc unit :=
  match loadEnv env with
  | Throw e => throw e
  | Ok cfg => startServer cfg
  end.

End StartServer.
End Server.

(* ===================================================================== *)
(** ** [utils/gracefulShutdown]: the callback of [server.close] *)
(* ===================================================================== *)

Module GracefulShutdown.
Section Shutdown.

Variable close_result : outcome unit.

(** The function that [shutdown] passes to [server.close]: it runs once the
    server has stopped.  The timer that forces the exit after ten seconds
    is real time and is left out. *)
Definition on_server_closed : Proc unit :=
  try_catch
    (Database.disconnectDb close_result ;;
     console_log "All connections closed. Exiting process." ;;
     process_exit 0)
    (λ error,
       console_error "Error during shutdown:" error ;;
       process_exit 1).

End Shutdown.
End GracefulShutdown.

(* ===================================================================== *)
(** ** [middlewares]: [authenticateUser] *)
(* ===================================================================== *)

Module AuthMiddleware.

(** [session.user] as the middleware reads it. *)
Record SessionUser : Type := mkSessionUser {
  id : string;
  email : string;
  name : string
}.

(** The object resolved by [auth.api.getSession]: a [session] part that the
    middleware never reads, and a [user] part that may be missing. *)
Record Session : Type := mkSession {
  session : Js.json;
  user : option SessionUser
}.

(** The object stored in [req.user]. *)
Record Identity : Type := mkIdentity {
  identity_id : string;
  identity_email : string;
  identity_name : string
}.

Record Request : Type := mkRequest {
  headers : gmap string string;
  req_user : option Identity       (* [(req as any).user] *)
}.

(** How the middleware hands over: [next()] or [next(error)]. *)
Inductive next_call : Type :=
| Next
| NextError (error : exn).

Definition unauthorized : ErrorResponse :=
  mkErrorResponse "Unauthorized access" 401 None.

Section Middleware.

(** [auth.api.getSession({ headers: fromNodeHeaders(req.headers) })] of
    the authentication library: it resolves to a session, resolves to
    [null], or throws. *)
Variable getSession : gmap string string → outcome (option Session).

(** The [try] block, up to the call of [next()]. *)
Definition resolve (req : Request) : outcome Request :=
  s ← getSession (headers req);
  match s with
  | Some {| user := Some u |} =>
      Ok (mkRequest (headers req)
            (Some (mkIdentity (id u) (email u) (name u))))
  | _ => Throw (AppError unauthorized)
  end.

Definition authenticateUser (req : Request) : Request * next_call :=
  match resolve req with
  | Ok req' => (req', Next)
  | Throw error =>
      if instanceof_ErrorResponse error
      then (req, NextError error)
      else (req, NextError (AppError unauthorized))
  end.

End Middleware.

End AuthMiddleware.

(* ===================================================================== *)
(** ** [routes/health.routes.ts] *)
(* ===================================================================== *)

Module Health.

(** What the handlers read: the state of the mongoose connection
    (0 disconnected, 1 connected, 2 connecting, 3 disconnecting), whose
    read is the operation of the [try] blocks that may throw here,
    [process.uptime()], [Date.now()] and [process.env]. *)
Record Runtime : Type := mkRuntime {
  readyState : outcome Z;
  uptime : Qc;
  timestamp : Qc;
  env : Env
}.

(** [res.status(status).json(body)] *)
Record Response : Type := mkResponse {
  status : Z;
  body : Js.json
}.

Definition health_body (rt : Runtime) (msg database : string) : Js.json :=
  Js.JObj
    [("uptime", Js.JNum (uptime rt));
     ("message", Js.JStr msg);
     ("timestamp", Js.JNum (timestamp rt));
     ("environment", Js.JStr (Js.or_str (env rt !! "NODE_ENV") "development"));
     ("services", Js.JObj [("database", Js.JStr database)])].

(** GET /health *)
Definition health (rt : Runtime) : Response :=
  match readyState rt with
  | Ok state =>
      let database := if state =? 1 then "connected" else "disconnected" in
      let statusCode := if String.eqb database "connected" then 200 else 503 in
      mkResponse statusCode (health_body rt "OK" database)
  | Throw _ =>
      mkResponse 503 (health_body rt "Error checking services" "unknown")
  end.

(** GET /health/live *)
Definition live (rt : Runtime) : Response :=
  mkResponse 200 (Js.JObj [("status", Js.JStr "alive")]).

(** GET /health/ready *)
Definition ready (rt : Runtime) : Response :=
  match readyState rt with
  | Ok state =>
      let dbReady := state =? 1 in
      if dbReady
      then mkResponse 200 (Js.JObj [("status", Js.JStr "ready")])
      else mkResponse 503
             (Js.JObj [("status", Js.JStr "not ready");
                       ("reason", Js.JStr "database not connected")])
  | Throw _ =>
      mkResponse 503
        (Js.JObj [("status", Js.JStr "not ready");
                  ("error", Js.JStr "health check failed")])
  end.

(** The envelope rule for a response: [success] is a boolean and it is
    true exactly when the status code is below 400. *)
Definition envelope_ok (r : Response) : Prop :=
  ∃ b : bool, Js.get "success" (body r) = Some (Js.JBool b)
              ∧ b = (status r <? 400).

(** A non-empty string under [key]. *)
Definition has_text (key : string) (b : Js.json) : Prop :=
  ∃ s : string, Js.get key b = Some (Js.JStr s) ∧ s ≠ "".

End Health.

(* ===================================================================== *)
(** ** [helpers/auth/auth.ts]: the declared password policy *)
(* ===================================================================== *)

Module AuthConfig.

Record EmailAndPassword : Type := mkEmailAndPassword {
  enabled : bool;
  disableSignUp : bool;
  requireEmailVerification : bool;
  minPasswordLength : Z;
  maxPasswordLength : Z;
  autoSignIn : bool
}.

(** The [emailAndPassword] block passed to [betterAuth]. *)
Definition emailAndPassword : EmailAndPassword :=
  mkEmailAndPassword true false true 8 128 true.

Record SignUp : Type := mkSignUp {
  signup_email : string;
  signup_name : string;
  signup_password : string
}.

Inductive signup_result : Type :=
| Created
| PasswordTooShort
| PasswordTooLong
| SignUpDisabled.

Definition password_length (r : SignUp) : Z :=
  Z.of_nat (String.length (signup_password r)).

(** The declared bounds, as a test on a password. *)
Definition policy_accepts (cfg : EmailAndPassword) (r : SignUp) : bool :=
  (minPasswordLength cfg <=? password_length r)
  && (password_length r <=? maxPasswordLength cfg).

(** Modelled from the spec: the sign-up of the authentication engine,
    which is outside the sources.  It applies the declared bounds before it
    stores anything: a password outside them is rejected and the user
    records stay as they were. *)
Definition signUpEmail (cfg : EmailAndPassword) (users : list SignUp)
    (r : SignUp) : signup_result * list SignUp :=
  if negb (enabled cfg) || disableSignUp cfg then (SignUpDisabled, users)
  else if password_length r <? minPasswordLength cfg
  then (PasswordTooShort, users)
  else if password_length r >? maxPasswordLength cfg
  then (PasswordTooLong, users)
  else (Created, (users ++ [r])%list).

End AuthConfig.

Definition env_example : Env :=
  list_to_map
    [("MONGO_URI", "mongodb://db/app"); ("BETTER_AUTH_SECRET", "s3cr3t");
     ("SMTP_USER", "me@example.com"); ("SMTP_PASS", "pw");
     ("GITHUB_CLIENT_ID", "gh"); ("GITHUB_CLIENT_SECRET", "ghs");
     ("GOOGLE_CLIENT_ID", "go"); ("GOOGLE_CLIENT_SECRET", "gos")].

(** The middleware hands over a 401 carrying the fixed message. *)
Definition produces_401 (r : AuthMiddleware.Request * AuthMiddleware.next_call)
    : Prop :=
  ∃ er, snd r = AuthMiddleware.NextError (AppError er)
        ∧ statusCode er = 401
        ∧ message er = "Unauthorized access".

(** The session resolution is the authentication library, which does not
    know the application's [ErrorResponse] class: nothing it throws is an
    instance of it. *)
Definition library_resolution
    (getSession : gmap string string → outcome (option AuthMiddleware.Session))
    : Prop :=
  ∀ h e, getSession h = Throw e → instanceof_ErrorResponse e = false.

(** A resolution that throws an [ErrorResponse] of the application, to
    exercise the branch of the [catch] clause that forwards one. *)
Definition getSession_app_500
    : gmap string string → outcome (option AuthMiddleware.Session) :=
  λ _, Throw (AppError (mkErrorResponse "Internal Server Error" 500 None)).

(** A resolution that throws a library error. *)
Definition getSession_library_error
    : gmap string string → outcome (option AuthMiddleware.Session) :=
  λ _, Throw (OtherError "connect ECONNREFUSED").

(** A resolution that finds no session. *)
Definition getSession_null
    : gmap string string → outcome (option AuthMiddleware.Session) :=
  λ _, Ok None.

(** A resolution that finds a session without its user part. *)
Definition getSession_no_user
    : gmap string string → outcome (option AuthMiddleware.Session) :=
  λ _, Ok (Some (AuthMiddleware.mkSession Js.JNull None)).

(** A resolution that finds a session and its user. *)
Definition getSession_alice
    : gmap string string → outcome (option AuthMiddleware.Session) :=
  λ _, Ok (Some (AuthMiddleware.mkSession Js.JNull
                   (Some (AuthMiddleware.mkSessionUser "u1" "a@b.com" "Alice")))).

Definition request_example : AuthMiddleware.Request :=
  AuthMiddleware.mkRequest {[ "cookie" := "better-auth.session_token=abc" ]} None.

(** A process whose database is connected, one whose database is not, and
    one where reading the connection state throws. *)
Definition runtime_connected : Health.Runtime :=
  Health.mkRuntime (Ok 1) (Q2Qc 12.5) (Q2Qc 1700000000000) ∅.

Definition runtime_disconnected : Health.Runtime :=
  Health.mkRuntime (Ok 0) (Q2Qc 12.5) (Q2Qc 1700000000000) ∅.

Definition runtime_check_throws : Health.Runtime :=
  Health.mkRuntime (Throw (OtherError "connection is gone"))
    (Q2Qc 12.5) (Q2Qc 1700000000000) ∅.

(** The sign-up request of the scenario. *)
Definition signup_short_password : AuthConfig.SignUp :=
  AuthConfig.mkSignUp "a@b.com" "A" "x".

(** A driver that refuses every connection. *)
Definition refuse_connection : nat → string → outcome unit :=
  λ _ _, Throw (OtherError "ECONNREFUSED").

(** Where a process that started in [w] is after one refused connection:
    one attempt, the error on the console, exit code 1. *)
Definition failed_connect {A : Type} (dbUrl : string) (e : exn) (w : world)
    : completion A * world :=
  (Exited 1,
   mkWorld (trace w ++ [EvConnect dbUrl;
                        EvError "Error connecting to MongoDB:" e;
                        EvExit 1])
           (S (connect_calls w))).

(** The process ends while the environment module is loaded: the exception
    of the module is uncaught and no port has been bound, whatever
    [createApp] would have done. *)
Definition fails_before_listen {Config : Type}
    (loadEnv : Env → outcome Config) (env : Env) : Prop :=
  ∃ e, loadEnv env = Throw e
       ∧ ∀ (App : Type) (createApp : Proc App)
           (listen_result : port_arg → outcome unit)
           (PORT : Config → port_arg),
           let r := Server.program App createApp listen_result Config loadEnv
                      PORT env initial_world in
           fst r = Raised e ∧ binds_port (trace (snd r)) = false.

(** The names that the second environment module cannot load without:
    those read without a default, and the OAuth names, read with the
    default "". *)
Definition needed_by_ConfigEnv : list string :=
  ["SMTP_USER"; "SMTP_PASS"; "BETTER_AUTH_SECRET"; "GITHUB_CLIENT_ID";
   "GITHUB_CLIENT_SECRET"; "GOOGLE_CLIENT_ID"; "GOOGLE_CLIENT_SECRET"].

(** An environment with a port and no URL for the authentication server. *)
Definition env_port_8080 : Env := <["PORT" := "8080"]> env_example.

(** A [createApp] that starts by connecting to a database that refuses the
    connection, one that returns at once, and one that throws. *)
Definition createApp_refused : Proc unit :=
  Database.connectDb refuse_connection "app" "mongodb://db/app" ;; ret tt.

Definition createApp_ready : Proc unit := ret tt.

Definition createApp_throws : Proc unit := throw (OtherError "cannot build app").

(** A [listen] that accepts every port argument, and one that refuses every
    port argument at once. *)
Definition listen_accepts : port_arg → outcome unit := λ _, Ok tt.

Definition listen_refuses : port_arg → outcome unit :=
  λ _, Throw (OtherError "ERR_SOCKET_BAD_PORT").

(** The process when [startServer] is called: the database module,
    evaluated with the imports, has registered its SIGINT handler. *)
Definition world_after_imports : world := mkWorld [EvOn "SIGINT"] 0.

(** Where [startServer] ends when it catches [e]: the error on the console
    and exit code 1. *)
Definition failed_start {A : Type} (e : exn) (w : world)
    : completion A * world :=
  (Exited 1,
   mkWorld (trace w ++ [EvError "Failed to start server:" e; EvExit 1])
           (connect_calls w)).

(** A driver that accepts every connection. *)
Definition accept_connection : nat → string → outcome unit := λ _ _, Ok tt.

(** The events with which [startServer] begins and, when [createApp]
    returns, ends.  The first text is the one of [startServer] above; in the
    source it ends with a line feed. *)
Definition server_starting (w : world) : world :=
  emit (EvLog "Starting server...") w.

Definition server_listening (port : port_arg) (w : world) : world :=
  mkWorld (trace w ++ [EvListen port; EvOn "SIGTERM"; EvOn "SIGINT";
                       EvOn "uncaughtException"; EvOn "unhandledRejection"])
          (connect_calls w).

(** A variable is missing when it is absent or empty. *)
Definition missing (env : Env) (key : string) : Prop :=
  env !! key = None ∨ env !! key = Some "".

(* ===================================================================== *)
(** ** Properties of the environment modules *)
(* ===================================================================== *)

Example parseInt10_plain : Js.parseInt10 "5000" = Some 5000.
Proof. reflexivity. Qed.
Example parseInt10_suffix : Js.parseInt10 "  80abc" = Some 80.
Proof. reflexivity. Qed.
Example parseInt10_negative : Js.parseInt10 "-1" = Some (-1).
Proof. reflexivity. Qed.
Example parseInt10_nan : Js.parseInt10 "port" = None.
Proof. reflexivity. Qed.
Example split_comma_two :
  Js.split_comma "http://a,http://b" = ["http://a"; "http://b"].
Proof. reflexivity. Qed.

Lemma outcome_bind_Ok {A B} (m : outcome A) (f : A → outcome B) (b : B) :
  m ≫= f = Ok b → ∃ a, m = Ok a ∧ f a = Ok b.
Proof. destruct m as [a | e]; [by exists a | done]. Qed.

Lemma eqb_empty_false (v : string) : v ≠ "" → String.eqb v "" = false.
Proof. intros Hv. by apply String.eqb_neq. Qed.

Lemma truthy_missing (env : Env) (key : string) :
  missing env key → Js.truthy (env !! key) = false.
Proof. by intros [-> | ->]. Qed.

Lemma truthy_present (env : Env) (key v : string) :
  env !! key = Some v → v ≠ "" → Js.truthy (env !! key) = true.
Proof. intros -> Hv. simpl. by rewrite eqb_empty_false. Qed.

Lemma or_str_missing (env : Env) (key d : string) :
  missing env key → Js.or_str (env !! key) d = d.
Proof. by intros [-> | ->]. Qed.

Lemma or_str_present (env : Env) (key v d : string) :
  env !! key = Some v → v ≠ "" → Js.or_str (env !! key) d = v.
Proof. intros -> Hv. simpl. by rewrite eqb_empty_false. Qed.

Module EnvConfigFacts.
Import EnvConfig.

Lemma utils_getEnvVariable_missing env key :
  missing env key →
  getEnvVariable key None env =
    Throw (OtherError
      ("Environment variable " +:+ key +:+ " is required but not defined")).
Proof.
  intros Hm. unfold getEnvVariable, Js.or.
  by rewrite (truthy_missing _ _ Hm).
Qed.

Lemma utils_getEnvVariable_present env key d v :
  env !! key = Some v → v ≠ "" → getEnvVariable key d env = Ok v.
Proof.
  intros Hk Hv. unfold getEnvVariable, Js.or.
  rewrite (truthy_present _ _ _ Hk Hv), Hk. simpl.
  by rewrite eqb_empty_false.
Qed.

Lemma utils_getEnvVariable_default env key dv :
  missing env key → dv ≠ "" → getEnvVariable key (Some dv) env = Ok dv.
Proof.
  intros Hm Hd. unfold getEnvVariable, Js.or.
  rewrite (truthy_missing _ _ Hm). simpl. by rewrite eqb_empty_false.
Qed.

Lemma utils_load_missing env key :
  In key required → missing env key → ∃ e, load env = Throw e.
Proof.
  intros Hreq Hm. unfold load.
  destruct (getPort env) as [port | e]; [| by eexists].
  simpl in Hreq. destruct Hreq as [<- | [<- | []]].
  - rewrite (utils_getEnvVariable_missing _ _ Hm). by eexists.
  - destruct (getEnvVariable "MONGO_URI" None env) as [uri | e]; [| by eexists].
    cbn. rewrite (utils_getEnvVariable_missing _ _ Hm). by eexists.
Qed.

Lemma utils_load_SMTP_FROM env c : load env = Ok c → SMTP_FROM c = SMTP_FROM_of env.
Proof.
  unfold load.
  destruct (getPort env) as [port | e]; [cbn | done].
  destruct (getEnvVariable "MONGO_URI" None env) as [uri | e]; [cbn | done].
  destruct (getEnvVariable "BETTER_AUTH_SECRET" None env) as [sec | e];
    [cbn | done].
  by intros [= <-].
Qed.

Lemma getPort_range env n : getPort env = Ok n → 0 ≤ n ≤ 65535.
Proof.
  unfold getPort.
  destruct (Js.parseInt10 _) as [m |]; [| done].
  destruct (m <? 0) eqn:Hlo; [done |].
  destruct (m >? 65535) eqn:Hhi; [done |].
  intros [= <-]. lia.
Qed.

End EnvConfigFacts.

Module ConfigEnvFacts.
Import ConfigEnv.

Lemma config_getEnvVariable_missing env key :
  missing env key →
  getEnvVariable key None env =
    Throw (OtherError
      ("Environment variable " +:+ key +:+ " is required but not defined")).
Proof.
  intros Hm. unfold getEnvVariable. by rewrite (or_str_missing _ _ _ Hm).
Qed.

Lemma config_getEnvVariable_present env key d v :
  env !! key = Some v → v ≠ "" → getEnvVariable key d env = Ok v.
Proof.
  intros Hk Hv. unfold getEnvVariable.
  rewrite (or_str_present _ _ _ _ Hk Hv). by rewrite eqb_empty_false.
Qed.

Lemma config_getEnvVariable_default env key dv :
  missing env key → dv ≠ "" → getEnvVariable key (Some dv) env = Ok dv.
Proof.
  intros Hm Hd. unfold getEnvVariable. simpl.
  rewrite (or_str_missing _ _ _ Hm). by rewrite eqb_empty_false.
Qed.

(** The module body reaches its end only if every read yields a value. *)
Ltac invert_body H :=
  repeat (apply outcome_bind_Ok in H;
          let v := fresh "v" in
          let Hv := fresh "Hv" in
          destruct H as (v & Hv & H)).

Lemma config_load_missing env key :
  In key required → missing env key → ∃ e, load env = Throw e.
Proof.
  intros Hreq Hm.
  pose proof (config_getEnvVariable_missing _ _ Hm) as Hthrow.
  destruct (load env) as [c | e] eqn:Hload; [exfalso | by eexists].
  unfold load in Hload. invert_body Hload.
  simpl in Hreq. destruct Hreq as [<- | [<- | [<- | []]]]; congruence.
Qed.

Lemma config_load_SMTP_FROM env c : load env = Ok c → SMTP_FROM_of env = Ok (SMTP_FROM c).
Proof.
  intros Hload. unfold load in Hload. invert_body Hload.
  injection Hload as <-. simpl. assumption.
Qed.

End ConfigEnvFacts.

Lemma program_load_throws (App : Type) (createApp : Proc App)
    (listen_result : port_arg → outcome unit) (Config : Type)
    (loadEnv : Env → outcome Config) (PORT : Config → port_arg)
    (env : Env) (e : exn) (w : world) :
  loadEnv env = Throw e →
  Server.program App createApp listen_result Config loadEnv PORT env w
  = (Raised e, w).
Proof. intros H. unfold Server.program. by rewrite H. Qed.

Lemma load_throw_fails_before_listen {Config : Type}
    (loadEnv : Env → outcome Config) (env : Env) (e : exn) :
  loadEnv env = Throw e → fails_before_listen loadEnv env.
Proof.
  intros H. exists e. split; [done |]. intros App createApp listen_result PORT.
  by rewrite (program_load_throws _ _ _ _ _ _ _ _ _ H).
Qed.

Example getPort_8080 : EnvConfig.getPort {[ "PORT" := "8080" ]} = Ok 8080.
Proof. reflexivity. Qed.
Example getPort_too_large : is_Throw (EnvConfig.getPort {[ "PORT" := "70000" ]}) = true.
Proof. reflexivity. Qed.
Example getPort_negative : is_Throw (EnvConfig.getPort {[ "PORT" := "-1" ]}) = true.
Proof. reflexivity. Qed.
Example getPort_not_a_number : is_Throw (EnvConfig.getPort {[ "PORT" := "http" ]}) = true.
Proof. reflexivity. Qed.
Example getPort_empty : EnvConfig.getPort {[ "PORT" := "" ]} = Ok 5000.
Proof. reflexivity. Qed.

(** C10: for every value of PORT, [getPort] of [utils/envConfig.ts] either
    returns the integer that [parseInt] read, lying between 0 and 65535, or
    throws; it returns neither NaN nor a number out of range.  When PORT is
    absent it returns 5000. *)
Theorem getPort_range_or_throw (env : Env) :
  ((∃ n, EnvConfig.getPort env = Ok n ∧ 0 ≤ n ≤ 65535
         ∧ Js.parseInt10 (Js.or_str (env !! "PORT") "5000") = Some n)
   ∨ (∃ e, EnvConfig.getPort env = Throw e))
  ∧ (env !! "PORT" = None → EnvConfig.getPort env = Ok 5000).
Proof.
  split.
  - destruct (EnvConfig.getPort env) as [n | e] eqn:Hport; [left | right; by eexists].
    exists n. split; [done |]. split; [by apply (EnvConfigFacts.getPort_range env) |].
    unfold EnvConfig.getPort in Hport.
    destruct (Js.parseInt10 _) as [m |]; [| done].
    destruct ((m <? 0) || (m >? 65535)); [done |]. by injection Hport as ->.
  - intros Habsent. unfold EnvConfig.getPort. by rewrite Habsent.
Qed.

Lemma getPort_range_or_throw_witness :
  (∅ : Env) !! "PORT" = None ∧ EnvConfig.getPort ∅ = Ok 5000.
Proof.
  split; [reflexivity |].
  apply (proj2 (getPort_range_or_throw ∅)). reflexivity.
Defined.

(** C7: the two environment modules compute SMTP_FROM differently when the
    variable is absent.  [utils/envConfig.ts] falls back to the value of
    SMTP_USER; the other module takes the fixed default
    "noreply@yourapp.com".  So with SMTP_FROM unset and SMTP_USER set to
    another value than that default, the two expressions differ, and so do
    the SMTP_FROM fields of the two configurations whenever both modules
    load. *)
Theorem SMTP_FROM_modules_differ (env : Env) (u : string) :
  env !! "SMTP_FROM" = None →
  env !! "SMTP_USER" = Some u →
  u ≠ "noreply@yourapp.com" →
  EnvConfig.SMTP_FROM_of env = Some u
  ∧ ConfigEnv.SMTP_FROM_of env = Ok "noreply@yourapp.com"
  ∧ ∀ c1 c2, EnvConfig.load env = Ok c1 → ConfigEnv.load env = Ok c2 →
             EnvConfig.SMTP_FROM c1 = Some u
             ∧ ConfigEnv.SMTP_FROM c2 = "noreply@yourapp.com"
             ∧ EnvConfig.SMTP_FROM c1 ≠ Some (ConfigEnv.SMTP_FROM c2).
Proof.
  intros Hfrom Huser Hne.
  assert (H1 : EnvConfig.SMTP_FROM_of env = Some u).
  { unfold EnvConfig.SMTP_FROM_of, Js.or. by rewrite Hfrom, Huser. }
  assert (H2 : ConfigEnv.SMTP_FROM_of env = Ok "noreply@yourapp.com").
  { unfold ConfigEnv.SMTP_FROM_of, ConfigEnv.getEnvVariable. by rewrite Hfrom. }
  split; [done |]. split; [done |].
  intros c1 c2 Hc1 Hc2.
  apply EnvConfigFacts.utils_load_SMTP_FROM in Hc1.
  apply ConfigEnvFacts.config_load_SMTP_FROM in Hc2.
  rewrite H1 in Hc1. rewrite H2 in Hc2. injection Hc2 as Hc2.
  rewrite Hc1, <- Hc2. split; [done |]. split; [done |]. congruence.
Qed.

Lemma SMTP_FROM_modules_differ_witness :
  env_example !! "SMTP_FROM" = None
  ∧ env_example !! "SMTP_USER" = Some "me@example.com"
  ∧ "me@example.com" ≠ "noreply@yourapp.com"
  ∧ ∃ c1 c2, EnvConfig.load env_example = Ok c1
             ∧ ConfigEnv.load env_example = Ok c2
             ∧ EnvConfig.SMTP_FROM c1 = Some "me@example.com"
             ∧ ConfigEnv.SMTP_FROM c2 = "noreply@yourapp.com"
             ∧ EnvConfig.SMTP_FROM c1 ≠ Some (ConfigEnv.SMTP_FROM c2).
Proof.
  assert (Hfrom : env_example !! "SMTP_FROM" = None) by reflexivity.
  assert (Huser : env_example !! "SMTP_USER" = Some "me@example.com")
    by reflexivity.
  assert (Hne : "me@example.com" ≠ "noreply@yourapp.com") by discriminate.
  split; [exact Hfrom |]. split; [exact Huser |]. split; [exact Hne |].
  destruct (EnvConfig.load env_example) as [c1 | e1] eqn:H1;
    [| vm_compute in H1; discriminate H1].
  destruct (ConfigEnv.load env_example) as [c2 | e2] eqn:H2;
    [| vm_compute in H2; discriminate H2].
  exists c1, c2. split; [reflexivity |]. split; [reflexivity |].
  exact (proj2 (proj2 (SMTP_FROM_modules_differ env_example "me@example.com"
                         Hfrom Huser Hne)) c1 c2 H1 H2).
Defined.

Example EnvConfig_load_empty :
  EnvConfig.load ∅ =
    Throw (OtherError "Environment variable MONGO_URI is required but not defined").
Proof. reflexivity. Qed.

Example ConfigEnv_load_empty :
  ConfigEnv.load ∅ =
    Throw (OtherError "Environment variable SMTP_USER is required but not defined").
Proof. reflexivity. Qed.

(** In the second module the OAuth names are read with the default "", so
    they too must be set for the module to load. *)
Example ConfigEnv_load_without_oauth :
  ConfigEnv.load (delete "GITHUB_CLIENT_ID" env_example) =
    Throw (OtherError
      "Environment variable GITHUB_CLIENT_ID is required but not defined").
Proof. vm_compute. reflexivity. Qed.

(** C8: a required environment variable (one read through [getEnvVariable]
    without a default: MONGO_URI and BETTER_AUTH_SECRET in
    [utils/envConfig.ts]; SMTP_USER, SMTP_PASS and BETTER_AUTH_SECRET in the
    other module) that is absent or empty makes [getEnvVariable] and hence
    the environment module throw, which ends the process before
    [startServer] runs and so before any port is bound.  Conversely
    [getEnvVariable] returns the value of the variable when that is not
    empty, and the default when the variable is missing and the default is
    not empty. *)
Theorem required_env_missing_terminates (env : Env) (key : string) :
  (missing env key →
     is_Throw (EnvConfig.getEnvVariable key None env) = true
     ∧ is_Throw (ConfigEnv.getEnvVariable key None env) = true
     ∧ (In key EnvConfig.required → fails_before_listen EnvConfig.load env)
     ∧ (In key ConfigEnv.required → fails_before_listen ConfigEnv.load env))
  ∧ (∀ v d, env !! key = Some v → v ≠ "" →
       EnvConfig.getEnvVariable key d env = Ok v
       ∧ ConfigEnv.getEnvVariable key d env = Ok v)
  ∧ (∀ dv, missing env key → dv ≠ "" →
       EnvConfig.getEnvVariable key (Some dv) env = Ok dv
       ∧ ConfigEnv.getEnvVariable key (Some dv) env = Ok dv).
Proof.
  split; [| split].
  - intros Hm. repeat split.
    + by rewrite (EnvConfigFacts.utils_getEnvVariable_missing _ _ Hm).
    + by rewrite (ConfigEnvFacts.config_getEnvVariable_missing _ _ Hm).
    + intros Hreq.
      destruct (EnvConfigFacts.utils_load_missing env key Hreq Hm) as [e He].
      by apply (load_throw_fails_before_listen _ _ e).
    + intros Hreq.
      destruct (ConfigEnvFacts.config_load_missing env key Hreq Hm) as [e He].
      by apply (load_throw_fails_before_listen _ _ e).
  - intros v d Hk Hv. split.
    + by apply EnvConfigFacts.utils_getEnvVariable_present.
    + by apply ConfigEnvFacts.config_getEnvVariable_present.
  - intros dv Hm Hd. split.
    + by apply EnvConfigFacts.utils_getEnvVariable_default.
    + by apply ConfigEnvFacts.config_getEnvVariable_default.
Qed.

Lemma required_env_missing_terminates_witness :
  missing (delete "BETTER_AUTH_SECRET" env_example) "BETTER_AUTH_SECRET"
  ∧ In "BETTER_AUTH_SECRET" EnvConfig.required
  ∧ In "BETTER_AUTH_SECRET" ConfigEnv.required
  ∧ fails_before_listen EnvConfig.load (delete "BETTER_AUTH_SECRET" env_example)
  ∧ fails_before_listen ConfigEnv.load (delete "BETTER_AUTH_SECRET" env_example)
  ∧ env_example !! "MONGO_URI" = Some "mongodb://db/app"
  ∧ "mongodb://db/app" ≠ ""
  ∧ EnvConfig.getEnvVariable "MONGO_URI" None env_example = Ok "mongodb://db/app"
  ∧ missing env_example "NODE_ENV"
  ∧ "development" ≠ ""
  ∧ ConfigEnv.getEnvVariable "NODE_ENV" (Some "development") env_example
    = Ok "development".
Proof.
  assert (Hm : missing (delete "BETTER_AUTH_SECRET" env_example)
                 "BETTER_AUTH_SECRET") by (left; reflexivity).
  assert (H1 : In "BETTER_AUTH_SECRET" EnvConfig.required)
    by (simpl; auto).
  assert (H2 : In "BETTER_AUTH_SECRET" ConfigEnv.required)
    by (simpl; auto).
  assert (Hk : env_example !! "MONGO_URI" = Some "mongodb://db/app")
    by reflexivity.
  assert (Hv : "mongodb://db/app" ≠ "") by discriminate.
  assert (Hn : missing env_example "NODE_ENV") by (left; reflexivity).
  assert (Hd : "development" ≠ "") by discriminate.
  pose proof (required_env_missing_terminates
                (delete "BETTER_AUTH_SECRET" env_example) "BETTER_AUTH_SECRET")
    as (Hmiss & _ & _).
  pose proof (required_env_missing_terminates env_example "MONGO_URI")
    as (_ & Hpresent & _).
  pose proof (required_env_missing_terminates env_example "NODE_ENV")
    as (_ & _ & Hdefault).
  destruct (Hmiss Hm) as (_ & _ & Hf1 & Hf2).
  repeat (split; [assumption |]).
  split; [exact (Hf1 H1) |]. split; [exact (Hf2 H2) |].
  repeat (split; [assumption |]).
  split; [exact (proj1 (Hpresent _ None Hk Hv)) |].
  repeat (split; [assumption |]).
  exact (proj2 (Hdefault _ Hn Hd)).
Defined.

(* ===================================================================== *)
(** ** Properties of [connectDb] *)
(* ===================================================================== *)

Lemma connect_attempts_app (t u : list event) :
  connect_attempts (t ++ u) = (connect_attempts t + connect_attempts u)%nat.
Proof. unfold connect_attempts. by rewrite List.filter_app, List.length_app. Qed.

Section ConnectDb.

Variable connect_result : nat → string → outcome unit.
Variable connection_name : string.

Let connectDb := Database.connectDb connect_result connection_name.

Lemma connectDb_success dbUrl w :
  connect_result (connect_calls w) dbUrl = Ok tt →
  connectDb dbUrl w =
    (Returned tt,
     mkWorld (trace w ++ [EvConnect dbUrl;
                          EvLog "MongoDB connected successfully!";
                          EvLog ("Database: " +:+ connection_name)])
             (S (connect_calls w))).
Proof.
  intros H. unfold connectDb, Database.connectDb, try_catch, bind,
    Database.mongoose_connect, console_log, emit.
  rewrite H. cbn. by rewrite <- !app_assoc.
Qed.

Lemma connectDb_failure dbUrl w e :
  connect_result (connect_calls w) dbUrl = Throw e →
  connectDb dbUrl w = failed_connect dbUrl e w.
Proof.
  intros H. unfold failed_connect, connectDb, Database.connectDb, try_catch, bind,
    Database.mongoose_connect, console_error, process_exit, emit.
  rewrite H. cbn. by rewrite <- !app_assoc.
Qed.

Lemma connectDb_one_attempt dbUrl w :
  connect_calls (snd (connectDb dbUrl w)) = S (connect_calls w)
  ∧ connect_attempts (trace (snd (connectDb dbUrl w)))
    = S (connect_attempts (trace w)).
Proof.
  destruct (connect_result (connect_calls w) dbUrl) as [[] | e] eqn:H.
  - rewrite (connectDb_success _ _ H). cbn [snd trace connect_calls].
    rewrite connect_attempts_app. cbn. split; [done | lia].
  - rewrite (connectDb_failure _ _ _ H). unfold failed_connect.
    cbn [snd trace connect_calls].
    rewrite connect_attempts_app. cbn. split; [done | lia].
Qed.

End ConnectDb.

(** C6: [connectDb] calls [mongoose.connect] exactly once, whatever the
    outcome.  If that single attempt fails, the error is logged and the
    process exits with code 1: nothing that follows [connectDb] runs, so
    there is no retry and no traffic is served. *)
Theorem connectDb_fails_fast (connect_result : nat → string → outcome unit)
    (connection_name dbUrl : string) (w : world) :
  (connect_calls
     (snd (Database.connectDb connect_result connection_name dbUrl w))
   = S (connect_calls w)
   ∧ connect_attempts
       (trace (snd (Database.connectDb connect_result connection_name dbUrl w)))
     = S (connect_attempts (trace w)))
  ∧ (∀ e, connect_result (connect_calls w) dbUrl = Throw e →
       Database.connectDb connect_result connection_name dbUrl w
       = failed_connect dbUrl e w
       ∧ ∀ (B : Type) (rest : unit → Proc B),
           bind (Database.connectDb connect_result connection_name dbUrl) rest w
           = failed_connect dbUrl e w).
Proof.
  split; [apply connectDb_one_attempt |].
  intros e He.
  pose proof (connectDb_failure connect_result connection_name dbUrl w e He)
    as Hrun.
  split; [exact Hrun |].
  intros B rest. unfold bind. by rewrite Hrun.
Qed.

Lemma connectDb_fails_fast_witness :
  refuse_connection (connect_calls initial_world) "mongodb://db/app"
    = Throw (OtherError "ECONNREFUSED")
  ∧ Database.connectDb refuse_connection "app" "mongodb://db/app" initial_world
    = (Exited 1,
       mkWorld [EvConnect "mongodb://db/app";
                EvError "Error connecting to MongoDB:" (OtherError "ECONNREFUSED");
                EvExit 1] 1).
Proof.
  split; [reflexivity |].
  exact (proj1 (proj2 (connectDb_fails_fast refuse_connection "app"
                         "mongodb://db/app" initial_world)
                 (OtherError "ECONNREFUSED") eq_refl)).
Defined.

(* ===================================================================== *)
(** ** Properties of [authenticateUser] *)
(* ===================================================================== *)

Section AuthenticateUser.
Import AuthMiddleware.

Variable getSession : gmap string string → outcome (option Session).

Lemma authenticateUser_authenticated req s u :
  getSession (headers req) = Ok (Some s) → user s = Some u →
  authenticateUser getSession req =
    (mkRequest (headers req) (Some (mkIdentity (id u) (email u) (name u))),
     Next).
Proof.
  intros Hs Hu. unfold authenticateUser, resolve. rewrite Hs. cbn.
  destruct s as [se us]. cbn in Hu. by rewrite Hu.
Qed.

Lemma authenticateUser_null req :
  getSession (headers req) = Ok None →
  authenticateUser getSession req = (req, NextError (AppError unauthorized)).
Proof. intros Hs. unfold authenticateUser, resolve. by rewrite Hs. Qed.

Lemma authenticateUser_no_user req s :
  getSession (headers req) = Ok (Some s) → user s = None →
  authenticateUser getSession req = (req, NextError (AppError unauthorized)).
Proof.
  intros Hs Hu. unfold authenticateUser, resolve. rewrite Hs. cbn.
  destruct s as [se us]. cbn in Hu. by rewrite Hu.
Qed.

Lemma authenticateUser_throw req e :
  getSession (headers req) = Throw e →
  authenticateUser getSession req =
    (req, NextError (if instanceof_ErrorResponse e then e
                     else AppError unauthorized)).
Proof.
  intros Hs. unfold authenticateUser, resolve. rewrite Hs. cbn.
  by destruct (instanceof_ErrorResponse e).
Qed.

End AuthenticateUser.

Example authenticateUser_alice :
  AuthMiddleware.authenticateUser getSession_alice request_example =
    (AuthMiddleware.mkRequest (AuthMiddleware.headers request_example)
       (Some (AuthMiddleware.mkIdentity "u1" "a@b.com" "Alice")),
     AuthMiddleware.Next).
Proof. reflexivity. Qed.

(** C1: the session resolution is the call of the authentication library.
    Whenever it returns no session or throws, the middleware leaves the
    request as it is and hands over the fixed error, status 401 and message
    "Unauthorized access", never 500.  In the [catch] clause, anything
    thrown that is not an [ErrorResponse] is replaced by that fixed 401,
    and an [ErrorResponse] is forwarded unchanged rather than re-wrapped;
    with the library as resolution, the only [ErrorResponse] that reaches
    the clause is the 401 that the middleware throws itself. *)
Theorem authenticateUser_rejects
    (getSession : gmap string string → outcome (option AuthMiddleware.Session))
    (req : AuthMiddleware.Request) :
  (library_resolution getSession →
     getSession (AuthMiddleware.headers req) = Ok None
     ∨ (∃ e, getSession (AuthMiddleware.headers req) = Throw e) →
     AuthMiddleware.authenticateUser getSession req
       = (req, AuthMiddleware.NextError (AppError AuthMiddleware.unauthorized))
     ∧ produces_401 (AuthMiddleware.authenticateUser getSession req))
  ∧ (getSession (AuthMiddleware.headers req) = Ok None →
     AuthMiddleware.authenticateUser getSession req
       = (req, AuthMiddleware.NextError (AppError AuthMiddleware.unauthorized))
     ∧ produces_401 (AuthMiddleware.authenticateUser getSession req))
  ∧ (∀ e, getSession (AuthMiddleware.headers req) = Throw e →
          instanceof_ErrorResponse e = false →
          AuthMiddleware.authenticateUser getSession req
            = (req, AuthMiddleware.NextError (AppError AuthMiddleware.unauthorized))
          ∧ produces_401 (AuthMiddleware.authenticateUser getSession req))
  ∧ (∀ e, getSession (AuthMiddleware.headers req) = Throw e →
          instanceof_ErrorResponse e = true →
          AuthMiddleware.authenticateUser getSession req
            = (req, AuthMiddleware.NextError e))
  ∧ (library_resolution getSession →
     ∀ e, AuthMiddleware.resolve getSession req = Throw e →
          instanceof_ErrorResponse e = true →
          e = AppError AuthMiddleware.unauthorized)
  ∧ statusCode AuthMiddleware.unauthorized = 401
  ∧ statusCode AuthMiddleware.unauthorized ≠ 500
  ∧ message AuthMiddleware.unauthorized = "Unauthorized access".
Proof.
  assert (H401 : ∀ r, r = (req, AuthMiddleware.NextError
                                  (AppError AuthMiddleware.unauthorized)) →
                      produces_401 r).
  { intros r ->. by exists AuthMiddleware.unauthorized. }
  assert (Hnull : getSession (AuthMiddleware.headers req) = Ok None →
            AuthMiddleware.authenticateUser getSession req
            = (req, AuthMiddleware.NextError
                      (AppError AuthMiddleware.unauthorized))).
  { apply authenticateUser_null. }
  assert (Hother : ∀ e, getSession (AuthMiddleware.headers req) = Throw e →
            instanceof_ErrorResponse e = false →
            AuthMiddleware.authenticateUser getSession req
            = (req, AuthMiddleware.NextError
                      (AppError AuthMiddleware.unauthorized))).
  { intros e Hs He.
    pose proof (authenticateUser_throw getSession req e Hs) as H.
    by rewrite He in H. }
  split; [| split; [| split; [| split; [| split]]]].
  - intros Hlib [Hs | [e Hs]].
    + eauto.
    + pose proof (Hother e Hs (Hlib _ _ Hs)). eauto.
  - intros Hs. eauto.
  - intros e Hs He. eauto.
  - intros e Hs He.
    pose proof (authenticateUser_throw getSession req e Hs) as H.
    by rewrite He in H.
  - intros Hlib e Hres He. unfold AuthMiddleware.resolve in Hres.
    destruct (getSession (AuthMiddleware.headers req)) as [[s |] | e0] eqn:Hs;
      cbn in Hres.
    + destruct s as [se [u |]]; [discriminate Hres | by injection Hres as <-].
    + by injection Hres as <-.
    + injection Hres as <-. rewrite (Hlib _ _ Hs) in He. discriminate He.
  - done.
Qed.

Lemma authenticateUser_rejects_witness :
  (library_resolution getSession_null
   ∧ getSession_null (AuthMiddleware.headers request_example) = Ok None
   ∧ produces_401
       (AuthMiddleware.authenticateUser getSession_null request_example))
  ∧ (library_resolution getSession_library_error
     ∧ getSession_library_error (AuthMiddleware.headers request_example)
       = Throw (OtherError "connect ECONNREFUSED")
     ∧ instanceof_ErrorResponse (OtherError "connect ECONNREFUSED") = false
     ∧ AuthMiddleware.authenticateUser getSession_library_error
         request_example
       = (request_example,
          AuthMiddleware.NextError (AppError AuthMiddleware.unauthorized)))
  ∧ (getSession_app_500 (AuthMiddleware.headers request_example)
       = Throw (AppError (mkErrorResponse "Internal Server Error" 500 None))
     ∧ instanceof_ErrorResponse
         (AppError (mkErrorResponse "Internal Server Error" 500 None)) = true
     ∧ AuthMiddleware.authenticateUser getSession_app_500 request_example
       = (request_example,
          AuthMiddleware.NextError
            (AppError (mkErrorResponse "Internal Server Error" 500 None)))).
Proof.
  assert (Hnull : library_resolution getSession_null).
  { intros h e H. discriminate H. }
  assert (Hlib : library_resolution getSession_library_error).
  { intros h e H. injection H as <-. reflexivity. }
  split; [| split].
  - split; [exact Hnull |]. split; [reflexivity |].
    exact (proj2 (proj1 (authenticateUser_rejects getSession_null
                           request_example) Hnull (or_introl eq_refl))).
  - split; [exact Hlib |]. split; [reflexivity |]. split; [reflexivity |].
    exact (proj1 (proj1 (authenticateUser_rejects getSession_library_error
                           request_example) Hlib
                    (or_intror (ex_intro _ (OtherError "connect ECONNREFUSED")
                                  eq_refl)))).
  - split; [reflexivity |]. split; [reflexivity |].
    exact (proj1 (proj2 (proj2 (proj2 (authenticateUser_rejects
                                         getSession_app_500 request_example))))
             (AppError (mkErrorResponse "Internal Server Error" 500 None))
             eq_refl eq_refl).
Defined.

(** C2: a session that is present but has no user part is handled exactly as
    no session at all: the result is the one obtained when the resolution
    returns null, namely the fixed 401 error "Unauthorized access" (not
    500), and the request is left as it was, with no identity attached. *)
Theorem authenticateUser_session_without_user
    (getSession : gmap string string → outcome (option AuthMiddleware.Session))
    (req : AuthMiddleware.Request) (s : AuthMiddleware.Session) :
  getSession (AuthMiddleware.headers req) = Ok (Some s) →
  AuthMiddleware.user s = None →
  AuthMiddleware.authenticateUser getSession req
    = AuthMiddleware.authenticateUser getSession_null req
  ∧ AuthMiddleware.authenticateUser getSession req
    = (req, AuthMiddleware.NextError (AppError AuthMiddleware.unauthorized))
  ∧ produces_401 (AuthMiddleware.authenticateUser getSession req)
  ∧ AuthMiddleware.req_user
      (fst (AuthMiddleware.authenticateUser getSession req))
    = AuthMiddleware.req_user req
  ∧ statusCode AuthMiddleware.unauthorized ≠ 500.
Proof.
  intros Hs Hu.
  pose proof (authenticateUser_no_user getSession req s Hs Hu) as H.
  rewrite H. repeat split; try done.
  by exists AuthMiddleware.unauthorized.
Qed.

Lemma authenticateUser_session_without_user_witness :
  getSession_no_user (AuthMiddleware.headers request_example)
    = Ok (Some (AuthMiddleware.mkSession Js.JNull None))
  ∧ AuthMiddleware.user (AuthMiddleware.mkSession Js.JNull None) = None
  ∧ AuthMiddleware.authenticateUser getSession_no_user request_example
    = (request_example,
       AuthMiddleware.NextError (AppError AuthMiddleware.unauthorized)).
Proof.
  split; [reflexivity |]. split; [reflexivity |].
  exact (proj1 (proj2 (authenticateUser_session_without_user
                         getSession_no_user request_example
                         (AuthMiddleware.mkSession Js.JNull None)
                         eq_refl eq_refl))).
Defined.

(* ===================================================================== *)
(** ** Properties of the health probes *)
(* ===================================================================== *)

Example ready_connected :
  Health.ready runtime_connected =
    Health.mkResponse 200 (Js.JObj [("status", Js.JStr "ready")]).
Proof. reflexivity. Qed.

Example ready_disconnected :
  Health.ready runtime_disconnected =
    Health.mkResponse 503
      (Js.JObj [("status", Js.JStr "not ready");
                ("reason", Js.JStr "database not connected")]).
Proof. reflexivity. Qed.

Example health_connected_status : Health.status (Health.health runtime_connected) = 200.
Proof. reflexivity. Qed.

Example health_disconnected_status :
  Health.status (Health.health runtime_disconnected) = 503.
Proof. reflexivity. Qed.

(** C5: whatever the state of the database, of the process and of the
    environment, GET /health/live answers 200 with exactly the body
    {status: "alive"}; two processes in different states answer the same. *)
Theorem live_always_alive (rt rt' : Health.Runtime) :
  Health.live rt
    = Health.mkResponse 200 (Js.JObj [("status", Js.JStr "alive")])
  ∧ Health.status (Health.live rt) = 200
  ∧ Health.body (Health.live rt) = Js.JObj [("status", Js.JStr "alive")]
  ∧ Health.live rt = Health.live rt'.
Proof. by repeat split. Qed.

(** C3, as stated, fails on the health handlers: the body of
    GET /health/live has no [success] field at all, and neither have the
    bodies of GET /health/ready and GET /health. *)
Lemma health_bodies_break_envelope :
  Js.get "success" (Health.body (Health.live runtime_connected)) = None
  ∧ ¬ Health.envelope_ok (Health.live runtime_connected)
  ∧ ¬ Health.envelope_ok (Health.ready runtime_connected)
  ∧ ¬ Health.envelope_ok (Health.health runtime_connected).
Proof.
  split; [reflexivity |].
  repeat split; intros (b & Hget & _); cbn in Hget; discriminate Hget.
Qed.

(** C3 (amended): the bodies sent by the /health, /health/live and
    /health/ready handlers carry no [success] field; the status code sent
    with each is 200 or 503, and it is below 400 exactly when the body
    reports the healthy state: [status] "alive" for /health/live (always),
    [status] "ready" for /health/ready, [services.database] "connected" for
    /health. *)
Theorem health_status_agrees_with_body (rt : Health.Runtime) :
  (Js.get "success" (Health.body (Health.live rt)) = None
   ∧ Health.status (Health.live rt) = 200
   ∧ Js.get "status" (Health.body (Health.live rt)) = Some (Js.JStr "alive"))
  ∧ (Js.get "success" (Health.body (Health.ready rt)) = None
     ∧ (Health.status (Health.ready rt) = 200
        ∨ Health.status (Health.ready rt) = 503)
     ∧ ((Health.status (Health.ready rt) <? 400) = true
        ↔ Js.get "status" (Health.body (Health.ready rt))
          = Some (Js.JStr "ready")))
  ∧ (Js.get "success" (Health.body (Health.health rt)) = None
     ∧ (Health.status (Health.health rt) = 200
        ∨ Health.status (Health.health rt) = 503)
     ∧ ((Health.status (Health.health rt) <? 400) = true
        ↔ Js.get "services" (Health.body (Health.health rt))
            ≫= Js.get "database"
          = Some (Js.JStr "connected"))).
Proof.
  split; [by repeat split |]. split.
  - unfold Health.ready.
    destruct (Health.readyState rt) as [state | e]; [| cbn; intuition (auto; done)].
    destruct (state =? 1); cbn; intuition (auto; done).
  - unfold Health.health.
    destruct (Health.readyState rt) as [state | e]; [| cbn; intuition (auto; done)].
    destruct (state =? 1); cbn; intuition (auto; done).
Qed.

(** C4, as stated, fails when the check throws: the body sent with 503 is
    {status: "not ready", error: "health check failed"}, which has no
    [reason]. *)
Lemma ready_exception_has_no_reason :
  Health.readyState runtime_check_throws ≠ Ok 1
  ∧ Health.ready runtime_check_throws
    = Health.mkResponse 503
        (Js.JObj [("status", Js.JStr "not ready");
                  ("error", Js.JStr "health check failed")])
  ∧ ¬ Health.has_text "reason" (Health.body (Health.ready runtime_check_throws)).
Proof.
  split; [discriminate |]. split; [reflexivity |].
  intros (s & Hget & _). cbn in Hget. discriminate Hget.
Qed.

(** C4 (amended): GET /health/ready answers 200, with the body
    {status: "ready"}, if and only if the connection state is read and is 1
    (connected).  When the state is read and is not 1, it answers 503 with
    {status: "not ready", reason: "database not connected"}, whose [reason]
    is a non-empty string.  When the check throws, it answers 503 with
    {status: "not ready", error: "health check failed"}: a non-empty
    [error] and no [reason]. *)
Theorem ready_iff_connected (rt : Health.Runtime) :
  (Health.status (Health.ready rt) = 200 ↔ Health.readyState rt = Ok 1)
  ∧ (Health.readyState rt = Ok 1 →
       Health.ready rt
         = Health.mkResponse 200 (Js.JObj [("status", Js.JStr "ready")]))
  ∧ (∀ state, Health.readyState rt = Ok state → state ≠ 1 →
       Health.ready rt
         = Health.mkResponse 503
             (Js.JObj [("status", Js.JStr "not ready");
                       ("reason", Js.JStr "database not connected")])
       ∧ Health.has_text "reason" (Health.body (Health.ready rt)))
  ∧ (∀ e, Health.readyState rt = Throw e →
       Health.ready rt
         = Health.mkResponse 503
             (Js.JObj [("status", Js.JStr "not ready");
                       ("error", Js.JStr "health check failed")])
       ∧ Health.has_text "error" (Health.body (Health.ready rt))
       ∧ Js.get "reason" (Health.body (Health.ready rt)) = None).
Proof.
  unfold Health.ready.
  destruct (Health.readyState rt) as [state | e0].
  - destruct (Z.eqb_spec state 1) as [-> | Hne]; cbn.
    + split; [done |]. split; [done |]. split.
      * intros st [= <-] Hst. done.
      * intros e He. discriminate He.
    + split; [split; [discriminate | intros [= ->]; done] |].
      split; [intros [= ->]; done |]. split.
      * intros st _ _. split; [done |]. by exists "database not connected".
      * intros e He. discriminate He.
  - cbn. split; [split; discriminate |].
    split; [discriminate |]. split; [discriminate |].
    intros e _. split; [done |]. split; [| done].
    by exists "health check failed".
Qed.

Lemma ready_iff_connected_witness :
  (Health.readyState runtime_connected = Ok 1
   ∧ Health.status (Health.ready runtime_connected) = 200)
  ∧ (Health.readyState runtime_disconnected = Ok 0 ∧ 0 ≠ 1
     ∧ Health.has_text "reason" (Health.body (Health.ready runtime_disconnected)))
  ∧ (Health.readyState runtime_check_throws
       = Throw (OtherError "connection is gone")
     ∧ Js.get "reason" (Health.body (Health.ready runtime_check_throws)) = None).
Proof.
  split; [| split].
  - split; [reflexivity |].
    exact (proj2 (proj1 (ready_iff_connected runtime_connected)) eq_refl).
  - split; [reflexivity |]. split; [discriminate |].
    refine (proj2 (proj1 (proj2 (proj2 (ready_iff_connected
                                          runtime_disconnected)))
                     0 eq_refl _)).
    discriminate.
  - split; [reflexivity |].
    exact (proj2 (proj2 (proj2 (proj2 (proj2 (ready_iff_connected
                                                runtime_check_throws)))
                           (OtherError "connection is gone") eq_refl))).
Defined.

(* ===================================================================== *)
(** ** Properties of the declared password policy *)
(* ===================================================================== *)

Example signUp_accepts_eight :
  AuthConfig.signUpEmail AuthConfig.emailAndPassword []
    (AuthConfig.mkSignUp "a@b.com" "A" "12345678")
  = (AuthConfig.Created, [AuthConfig.mkSignUp "a@b.com" "A" "12345678"]).
Proof. reflexivity. Qed.

(** C9: the declared policy bounds the password length to [8,128]
    ([minPasswordLength] 8, [maxPasswordLength] 128): a password is within
    the policy exactly when its length lies in that interval.  The sign-up
    {email: "a@b.com", name: "A", password: "x"}, of password length 1, is
    outside it, and the sign-up of the authentication engine rejects it with
    the user records unchanged; so it does for every password shorter
    than 8. *)
Theorem password_policy_rejects_short :
  AuthConfig.minPasswordLength AuthConfig.emailAndPassword = 8
  ∧ AuthConfig.maxPasswordLength AuthConfig.emailAndPassword = 128
  ∧ (∀ r, AuthConfig.policy_accepts AuthConfig.emailAndPassword r = true
          ↔ 8 ≤ AuthConfig.password_length r ≤ 128)
  ∧ AuthConfig.password_length signup_short_password = 1
  ∧ AuthConfig.policy_accepts AuthConfig.emailAndPassword signup_short_password
    = false
  ∧ (∀ users,
       AuthConfig.signUpEmail AuthConfig.emailAndPassword users
         signup_short_password
       = (AuthConfig.PasswordTooShort, users))
  ∧ (∀ users r,
       AuthConfig.policy_accepts AuthConfig.emailAndPassword r = false →
       snd (AuthConfig.signUpEmail AuthConfig.emailAndPassword users r) = users
       ∧ fst (AuthConfig.signUpEmail AuthConfig.emailAndPassword users r)
         ≠ AuthConfig.Created).
Proof.
  split; [reflexivity |]. split; [reflexivity |]. split.
  { intros r. unfold AuthConfig.policy_accepts. cbn.
    rewrite andb_true_iff, !Z.leb_le. done. }
  split; [reflexivity |]. split; [reflexivity |]. split; [done |].
  intros users r. unfold AuthConfig.policy_accepts, AuthConfig.signUpEmail. cbn.
  intros H. apply andb_false_iff in H.
  destruct (Z.ltb_spec (AuthConfig.password_length r) 8); [done |].
  destruct (Z.gtb_spec (AuthConfig.password_length r) 128); [done |].
  destruct H as [H | H]; apply Z.leb_gt in H; lia.
Qed.

Lemma password_policy_rejects_short_witness :
  AuthConfig.policy_accepts AuthConfig.emailAndPassword signup_short_password
    = false
  ∧ snd (AuthConfig.signUpEmail AuthConfig.emailAndPassword [] signup_short_password)
    = [].
Proof.
  split; [reflexivity |].
  exact (proj1 (proj2 (proj2 (proj2 (proj2 (proj2 (proj2
           password_policy_rejects_short)))))
           [] signup_short_password eq_refl)).
Defined.

(* ===================================================================== *)
(** ** More on the JavaScript primitives *)
(* ===================================================================== *)

Lemma append_assoc (a b c : string) : (a +:+ b) +:+ c = a +:+ (b +:+ c).
Proof.
  induction a as [| x a IH]; [reflexivity |]. exact (f_equal (String x) IH).
Qed.

Lemma append_empty_r (a : string) : a +:+ "" = a.
Proof.
  induction a as [| x a IH]; [reflexivity |]. exact (f_equal (String x) IH).
Qed.

Lemma split_comma_aux_nonempty (cur s : string) : Js.split_comma_aux cur s ≠ [].
Proof.
  revert cur. induction s as [| c s IH]; intros cur; cbn; [done |].
  destruct (Ascii.eqb c ","); [done | apply IH].
Qed.

Lemma join_comma_cons (p : string) (rest : list string) :
  rest ≠ [] → Js.join_comma (p :: rest) = p +:+ "," +:+ Js.join_comma rest.
Proof. by destruct rest. Qed.

Lemma split_comma_aux_join (cur s : string) :
  Js.join_comma (Js.split_comma_aux cur s) = cur +:+ s.
Proof.
  revert cur. induction s as [| c s IH]; intros cur; cbn.
  - by rewrite append_empty_r.
  - destruct (Ascii.eqb_spec c ",") as [-> | Hc].
    + rewrite join_comma_cons by apply split_comma_aux_nonempty.
      by rewrite IH.
    + rewrite IH. by rewrite append_assoc.
Qed.

Lemma digit_of_pretty_N_char (d : N) :
  (d < 10)%N → Js.digit_of (pretty_N_char d) = Some (Z.of_N d).
Proof.
  intros Hd.
  assert (d = 0 ∨ d = 1 ∨ d = 2 ∨ d = 3 ∨ d = 4 ∨ d = 5 ∨ d = 6 ∨ d = 7
          ∨ d = 8 ∨ d = 9)%N as Hcases by lia.
  repeat (destruct Hcases as [-> | Hcases]; [reflexivity |]).
  by subst.
Qed.

Lemma pretty_N_go_append (x : N) (s t : string) :
  pretty_N_go x s +:+ t = pretty_N_go x (s +:+ t).
Proof.
  revert s. induction (N.lt_wf_0 x) as [x _ IH]; intros s.
  destruct (decide (x = 0%N)) as [-> | Hx]; [by rewrite !pretty_N_go_0 |].
  rewrite (pretty_N_go_step x s), (pretty_N_go_step x (s +:+ t)) by lia.
  rewrite IH by (apply N.div_lt; lia). reflexivity.
Qed.

(** The digits that [pretty_N_go] writes in front of [s] are read back by
    [digits_prefix], and their value is [x]. *)
Lemma pretty_N_go_digits (x : N) (s : string) :
  ∃ ds, Js.digits_prefix (pretty_N_go x s) = (ds ++ Js.digits_prefix s)%list
        ∧ (∀ acc, fold_left (λ a d, 10 * a + d) ds acc
                  = acc * 10 ^ Z.of_nat (length ds) + Z.of_N x)
        ∧ ((0 < x)%N → ds ≠ []).
Proof.
  revert s. induction (N.lt_wf_0 x) as [x _ IH]; intros s.
  destruct (decide (x = 0%N)) as [-> | Hx].
  { exists []. rewrite pretty_N_go_0. split; [done |]. split; [| lia].
    intros acc. cbn. lia. }
  rewrite pretty_N_go_step by lia.
  destruct (IH (x `div` 10)%N ltac:(apply N.div_lt; lia)
              (String (pretty_N_char (x `mod` 10)) s)) as (ds & Hds & Hval & _).
  exists (ds ++ [Z.of_N (x `mod` 10)])%list.
  split; [| split].
  - rewrite Hds. cbn [Js.digits_prefix].
    rewrite digit_of_pretty_N_char by (apply N.mod_lt; lia).
    by rewrite <- app_assoc.
  - intros acc. rewrite fold_left_app, Hval. cbn [fold_left].
    rewrite length_app, Nat2Z.inj_add, Z.pow_add_r by lia.
    cbn [length]. change (10 ^ Z.of_nat 1) with 10.
    rewrite N2Z.inj_div, N2Z.inj_mod.
    pose proof (Z.div_mod (Z.of_N x) 10 ltac:(lia)). lia.
  - intros _. by destruct ds.
Qed.

(** Evaluate the character tests on the literal characters of the goal. *)
Ltac eval_char_tests :=
  repeat match goal with
    | |- context [Js.is_white_space ?c] =>
        let v := eval vm_compute in (Js.is_white_space c) in
        change (Js.is_white_space c) with v
    | |- context [Js.digit_of ?c] =>
        let v := eval vm_compute in (Js.digit_of c) in
        change (Js.digit_of c) with v
    end.

Lemma parseInt10_digits (s : string) :
  Js.digits_prefix s ≠ [] →
  Js.parseInt10 s = Some (Js.digits_value (Js.digits_prefix s)).
Proof.
  destruct s as [| c r]; [done |].
  destruct c as [[] [] [] [] [] [] [] []]; intros H; try (by cbn in H);
    unfold Js.parseInt10; cbn [Js.trim_start Js.digits_prefix];
    eval_char_tests; cbn -[Z.mul Js.digits_value];
    eval_char_tests; cbn -[Z.mul Js.digits_value];
    by rewrite Z.mul_1_l.
Qed.

Lemma parseInt10_minus (s : string) :
  Js.digits_prefix s ≠ [] →
  Js.parseInt10 (String "-" s) = Some (- Js.digits_value (Js.digits_prefix s)).
Proof.
  intros Hs. unfold Js.parseInt10. cbn [Js.trim_start].
  eval_char_tests. cbn -[Z.mul Js.digits_value].
  destruct (Js.digits_prefix s) as [| d ds]; [done |].
  f_equal.
Qed.

Lemma digits_of_positive (p : positive) (suffix : string) :
  Js.digits_prefix suffix = [] →
  Js.digits_prefix (pretty (N.pos p) +:+ suffix) ≠ []
  ∧ Js.digits_value (Js.digits_prefix (pretty (N.pos p) +:+ suffix)) = Z.pos p.
Proof.
  intros Hsuffix. unfold pretty, pretty_N.
  destruct (decide (N.pos p = 0%N)) as [|_]; [done |].
  rewrite pretty_N_go_append. change ("" +:+ suffix) with suffix.
  destruct (pretty_N_go_digits (N.pos p) suffix) as (ds & Hds & Hval & Hne).
  rewrite Hds, Hsuffix, app_nil_r. split; [apply Hne; lia |].
  unfold Js.digits_value. rewrite Hval. cbn. lia.
Qed.

(** Writing an integer in decimal and reading it with [parseInt(_, 10)]
    gives the integer back, whatever follows the digits. *)
Lemma parseInt10_pretty (n : Z) (suffix : string) :
  Js.digits_prefix suffix = [] →
  Js.parseInt10 (pretty n +:+ suffix) = Some n.
Proof.
  intros Hsuffix. destruct n as [| p | p].
  - change (pretty 0 +:+ suffix) with (String "0" suffix).
    rewrite parseInt10_digits; cbn; by rewrite Hsuffix.
  - destruct (digits_of_positive p suffix Hsuffix) as [Hne Hval].
    change (pretty (Z.pos p)) with (pretty (N.pos p)).
    by rewrite parseInt10_digits, Hval.
  - destruct (digits_of_positive p suffix Hsuffix) as [Hne Hval].
    change (pretty (Z.neg p) +:+ suffix)
      with (String "-" (pretty (N.pos p) +:+ suffix)).
    by rewrite parseInt10_minus, Hval.
Qed.

(* ===================================================================== *)
(** ** More on the environment modules *)
(* ===================================================================== *)

Lemma truthy_true_iff (o : option string) :
  Js.truthy o = true ↔ ∃ v, o = Some v ∧ v ≠ "".
Proof.
  split.
  - destruct o as [v |]; [| done]. cbn. intros H. exists v. split; [done |].
    intros ->. done.
  - intros (v & -> & Hv). cbn. by rewrite eqb_empty_false.
Qed.

Lemma truthy_false_missing (env : Env) (key : string) :
  Js.truthy (env !! key) = false → missing env key.
Proof.
  unfold missing. destruct (env !! key) as [v |]; [| by left]. cbn.
  destruct (String.eqb_spec v "") as [-> | Hv]; [by right | done].
Qed.

Lemma or_str_truthy (o : option string) (d v : string) :
  o = Some v → v ≠ "" → Js.or_str o d = v.
Proof. intros -> Hv. cbn. by rewrite eqb_empty_false. Qed.

Lemma or_str_falsy (o : option string) (d : string) :
  Js.truthy o = false → Js.or_str o d = d.
Proof.
  destruct o as [v |]; [| done]. cbn.
  by destruct (String.eqb v "").
Qed.

Lemma or_str_nonempty (o : option string) (d : string) :
  d ≠ "" → Js.or_str o d ≠ "".
Proof.
  intros Hd. destruct o as [v |]; [| done]. cbn.
  by destruct (String.eqb_spec v "").
Qed.

Lemma config_getEnvVariable_value env key d v :
  ConfigEnv.getEnvVariable key d env = Ok v →
  v = Js.or_str (env !! key) (default "" d) ∧ v ≠ "".
Proof.
  unfold ConfigEnv.getEnvVariable.
  destruct (String.eqb_spec (Js.or_str (env !! key) (default "" d)) "")
    as [| Hne]; [done |].
  by intros [= <-].
Qed.

Lemma config_getEnvVariable_ok env key d :
  Js.or_str (env !! key) (default "" d) ≠ "" →
  ConfigEnv.getEnvVariable key d env
  = Ok (Js.or_str (env !! key) (default "" d)).
Proof.
  intros Hne. unfold ConfigEnv.getEnvVariable. by rewrite eqb_empty_false.
Qed.

Lemma config_getEnvVariable_needs_value env key d v :
  ConfigEnv.getEnvVariable key d env = Ok v → default "" d = "" →
  Js.truthy (env !! key) = true.
Proof.
  intros Hget Hd. apply config_getEnvVariable_value in Hget as [Hv Hne].
  destruct (Js.truthy (env !! key)) eqn:Ht; [done |].
  rewrite (or_str_falsy _ _ Ht), Hd in Hv. done.
Qed.

(** X1: the two modules define [getEnvVariable] with different signatures
    ([defaultValue?: string] and [defaultValue: string = ""]), yet the two
    functions return or throw the same on every name, default and
    environment; what they return is never the empty string, and it is the
    value of the variable, or the default when the variable is missing. *)
Theorem getEnvVariable_modules_agree (env : Env) (key : string)
    (d : option string) :
  EnvConfig.getEnvVariable key d env = ConfigEnv.getEnvVariable key d env
  ∧ ∀ v, EnvConfig.getEnvVariable key d env = Ok v →
         v ≠ "" ∧ (env !! key = Some v ∨ (missing env key ∧ d = Some v)).
Proof.
  assert (Heq : EnvConfig.getEnvVariable key d env
                = ConfigEnv.getEnvVariable key d env).
  { unfold EnvConfig.getEnvVariable, ConfigEnv.getEnvVariable, Js.or.
    destruct (env !! key) as [v |]; cbn.
    - destruct (String.eqb_spec v "") as [-> | Hv]; cbn.
      + destruct d as [dv |]; cbn; [| done].
        by destruct (String.eqb dv "").
      + by rewrite eqb_empty_false.
    - destruct d as [dv |]; cbn; [| done].
      by destruct (String.eqb dv ""). }
  split; [exact Heq |].
  intros v Hget. rewrite Heq in Hget.
  apply config_getEnvVariable_value in Hget as [Hv Hne]. split; [done |].
  destruct (Js.truthy (env !! key)) eqn:Ht.
  - apply truthy_true_iff in Ht as (u & Hu & Hune). left.
    by rewrite Hv, (or_str_truthy _ _ _ Hu Hune).
  - right. split; [by apply truthy_false_missing |].
    rewrite (or_str_falsy _ _ Ht) in Hv.
    destruct d as [dv |]; cbn in Hv; [by rewrite Hv | done].
Qed.

Lemma getEnvVariable_modules_agree_witness :
  EnvConfig.getEnvVariable "MONGO_URI" None env_example = Ok "mongodb://db/app"
  ∧ "mongodb://db/app" ≠ ""
  ∧ (env_example !! "MONGO_URI" = Some "mongodb://db/app"
     ∨ (missing env_example "MONGO_URI" ∧ None = Some "mongodb://db/app")).
Proof.
  split; [reflexivity |].
  exact (proj2 (getEnvVariable_modules_agree env_example "MONGO_URI" None)
           "mongodb://db/app" eq_refl).
Defined.

Lemma parseInt10_Some_nonempty (s : string) (n : Z) :
  Js.parseInt10 s = Some n → s ≠ "".
Proof. by intros H ->. Qed.

(** X2: a PORT made of the decimal notation of an integer [n], followed by
    anything that does not start with a digit, is read as [n]: [getPort]
    returns [n] when 0 <= n <= 65535 and throws the "Invalid PORT value"
    error, quoting the raw text, otherwise. *)
Theorem getPort_decimal (env : Env) (n : Z) (suffix : string) :
  env !! "PORT" = Some (pretty n +:+ suffix) →
  Js.digits_prefix suffix = [] →
  EnvConfig.getPort env
  = if (0 <=? n) && (n <=? 65535) then Ok n
    else Throw (OtherError ("Invalid PORT value: " +:+ (pretty n +:+ suffix) +:+
                            ". Must be a number between 0 and 65535")).
Proof.
  intros Hport Hsuffix.
  pose proof (parseInt10_pretty n suffix Hsuffix) as Hparse.
  pose proof (parseInt10_Some_nonempty _ _ Hparse) as Hne.
  unfold EnvConfig.getPort.
  rewrite (or_str_truthy _ _ _ Hport Hne), Hparse.
  destruct (Z.leb_spec 0 n), (Z.leb_spec n 65535),
    (Z.ltb_spec n 0), (Z.gtb_spec n 65535); cbn; try done; lia.
Qed.

Lemma getPort_decimal_witness :
  ({[ "PORT" := "8080/tcp" ]} : Env) !! "PORT" = Some (pretty 8080 +:+ "/tcp")
  ∧ Js.digits_prefix "/tcp" = []
  ∧ EnvConfig.getPort {[ "PORT" := "8080/tcp" ]} = Ok 8080.
Proof.
  split; [reflexivity |]. split; [reflexivity |].
  exact (getPort_decimal {[ "PORT" := "8080/tcp" ]} 8080 "/tcp"
           eq_refl eq_refl).
Defined.

Ltac invert_binds H :=
  repeat (apply outcome_bind_Ok in H;
          let v := fresh "v" in
          let Hv := fresh "Hv" in
          destruct H as (v & Hv & H)).

Lemma utils_getEnvVariable_ok env key :
  Js.truthy (env !! key) = true →
  EnvConfig.getEnvVariable key None env = Ok (default "" (env !! key)).
Proof.
  intros Ht. unfold EnvConfig.getEnvVariable, Js.or. by rewrite Ht, Ht.
Qed.

Lemma utils_getEnvVariable_needs_value env key v :
  EnvConfig.getEnvVariable key None env = Ok v →
  Js.truthy (env !! key) = true ∧ env !! key = Some v.
Proof.
  unfold EnvConfig.getEnvVariable, Js.or.
  destruct (Js.truthy (env !! key)) eqn:Ht; [| done].
  rewrite Ht. cbn. intros [= <-]. split; [done |].
  apply truthy_true_iff in Ht as (u & -> & _). done.
Qed.

(** X3: [utils/envConfig.ts] loads exactly when PORT is acceptable to
    [getPort] and MONGO_URI and BETTER_AUTH_SECRET are set and not empty;
    every other variable may be missing.  The configuration then holds the
    port that [getPort] returned and the two values as they are in the
    environment. *)
Theorem EnvConfig_load_iff (env : Env) :
  ((∃ c, EnvConfig.load env = Ok c)
   ↔ (∃ n, EnvConfig.getPort env = Ok n)
     ∧ Js.truthy (env !! "MONGO_URI") = true
     ∧ Js.truthy (env !! "BETTER_AUTH_SECRET") = true)
  ∧ ∀ c, EnvConfig.load env = Ok c →
         EnvConfig.getPort env = Ok (EnvConfig.PORT c)
         ∧ env !! "MONGO_URI" = Some (EnvConfig.MONGO_URI c)
         ∧ env !! "BETTER_AUTH_SECRET" = Some (EnvConfig.BETTER_AUTH_SECRET c).
Proof.
  assert (Hinv : ∀ c, EnvConfig.load env = Ok c →
            EnvConfig.getPort env = Ok (EnvConfig.PORT c)
            ∧ EnvConfig.getEnvVariable "MONGO_URI" None env
              = Ok (EnvConfig.MONGO_URI c)
            ∧ EnvConfig.getEnvVariable "BETTER_AUTH_SECRET" None env
              = Ok (EnvConfig.BETTER_AUTH_SECRET c)).
  { intros c Hload. unfold EnvConfig.load in Hload. invert_binds Hload.
    injection Hload as <-. done. }
  split; [split |].
  - intros [c Hload]. destruct (Hinv c Hload) as (Hp & Hm & Hs).
    split; [by eexists |].
    split; [exact (proj1 (utils_getEnvVariable_needs_value _ _ _ Hm))
           | exact (proj1 (utils_getEnvVariable_needs_value _ _ _ Hs))].
  - intros ([n Hp] & Hm & Hs). unfold EnvConfig.load.
    rewrite Hp, (utils_getEnvVariable_ok _ _ Hm),
      (utils_getEnvVariable_ok _ _ Hs).
    by eexists.
  - intros c Hload. destruct (Hinv c Hload) as (Hp & Hm & Hs).
    split; [done |].
    split; [exact (proj2 (utils_getEnvVariable_needs_value _ _ _ Hm))
           | exact (proj2 (utils_getEnvVariable_needs_value _ _ _ Hs))].
Qed.

Lemma EnvConfig_load_iff_witness :
  ∃ c, EnvConfig.load env_example = Ok c
       ∧ EnvConfig.getPort env_example = Ok (EnvConfig.PORT c)
       ∧ env_example !! "MONGO_URI" = Some (EnvConfig.MONGO_URI c)
       ∧ env_example !! "BETTER_AUTH_SECRET"
         = Some (EnvConfig.BETTER_AUTH_SECRET c).
Proof.
  destruct (EnvConfig.load env_example) as [c | e] eqn:Hload;
    [| vm_compute in Hload; discriminate Hload].
  exists c. split; [reflexivity |].
  exact (proj2 (EnvConfig_load_iff env_example) c Hload).
Defined.

Lemma config_getEnvVariable_total env key d :
  default "" d ≠ "" ∨ Js.truthy (env !! key) = true →
  ∃ v, ConfigEnv.getEnvVariable key d env = Ok v.
Proof.
  intros H. eexists. apply config_getEnvVariable_ok.
  destruct H as [Hd | Ht]; [by apply or_str_nonempty |].
  apply truthy_true_iff in Ht as (u & Hu & Hne).
  by rewrite (or_str_truthy _ _ _ Hu Hne).
Qed.

Lemma config_load_needs env c :
  ConfigEnv.load env = Ok c →
  ∀ key, In key needed_by_ConfigEnv → Js.truthy (env !! key) = true.
Proof.
  intros Hload. unfold ConfigEnv.load, ConfigEnv.SMTP_FROM_of in Hload.
  invert_binds Hload.
  intros key Hin. cbn in Hin.
  repeat (destruct Hin as [<- | Hin];
          [eapply config_getEnvVariable_needs_value; [eassumption | done] |]).
  done.
Qed.

(** X4: the second environment module loads exactly when SMTP_USER,
    SMTP_PASS, BETTER_AUTH_SECRET and the four OAuth names
    (GITHUB_CLIENT_ID, GITHUB_CLIENT_SECRET, GOOGLE_CLIENT_ID,
    GOOGLE_CLIENT_SECRET) are all set and not empty: the OAuth names are
    read with the default "", which [getEnvVariable] rejects like a missing
    value. *)
Theorem ConfigEnv_load_iff (env : Env) :
  (∃ c, ConfigEnv.load env = Ok c)
  ↔ ∀ key, In key needed_by_ConfigEnv → Js.truthy (env !! key) = true.
Proof.
  split.
  - intros [c Hload]. by apply (config_load_needs env c).
  - intros Hall. unfold ConfigEnv.load, ConfigEnv.SMTP_FROM_of.
    repeat match goal with
      | |- context [ConfigEnv.getEnvVariable ?k ?d env] =>
          let v := fresh "v" in
          let Hv := fresh "Hv" in
          destruct (config_getEnvVariable_total env k d) as [v Hv];
          [first [ by left | right; apply Hall; cbn; tauto ] | rewrite Hv]
      end.
    by eexists.
Qed.

Lemma ConfigEnv_load_iff_witness :
  (∀ key, In key needed_by_ConfigEnv → Js.truthy (env_example !! key) = true)
  ∧ ∃ c, ConfigEnv.load env_example = Ok c.
Proof.
  assert (H : ∀ key, In key needed_by_ConfigEnv →
                     Js.truthy (env_example !! key) = true).
  { intros key Hin. cbn in Hin.
    repeat (destruct Hin as [<- | Hin]; [reflexivity |]). destruct Hin. }
  split; [exact H |].
  exact (proj2 (ConfigEnv_load_iff env_example) H).
Defined.

Lemma getPort_parse env n :
  EnvConfig.getPort env = Ok n →
  Js.parseInt10 (Js.or_str (env !! "PORT") "5000") = Some n.
Proof.
  unfold EnvConfig.getPort.
  destruct (Js.parseInt10 _) as [m |]; [| done].
  destruct ((m <? 0) || (m >? 65535)); [done |]. by intros [= ->].
Qed.

Lemma split_comma_join (s : string) : Js.join_comma (Js.split_comma s) = s.
Proof. unfold Js.split_comma. by rewrite split_comma_aux_join. Qed.

(** Replace what the reads of the two module bodies returned by what the
    environment holds. *)
Ltac resolve_reads :=
  repeat match goal with
    | H : ConfigEnv.getEnvVariable _ _ _ = Ok ?v |- _ =>
        apply config_getEnvVariable_value in H as [-> _]
    | H : EnvConfig.getEnvVariable ?k None _ = Ok ?v |- _ =>
        let Ht := fresh "Ht" in
        let He := fresh "He" in
        apply utils_getEnvVariable_needs_value in H as [Ht He];
        apply truthy_true_iff in Ht as (? & ? & ?)
    end.

(** X5: on an environment where both modules load, they hold the same
    NODE_ENV, MONGO_URI, ALLOWED_ORIGINS, rate-limit window and maximum,
    SMTP_HOST, SMTP_USER, SMTP_PASS, BETTER_AUTH_SECRET and FRONTEND_URL;
    PORT, SMTP_PORT and SMTP_SECURE are the same values in other types (the
    number of one module is [parseInt] of the string of the other, the
    boolean is the comparison of the string with "true"). *)
Theorem modules_agree_when_both_load (env : Env)
    (c1 : EnvConfig.Config) (c2 : ConfigEnv.Config) :
  EnvConfig.load env = Ok c1 → ConfigEnv.load env = Ok c2 →
  Js.parseInt10 (ConfigEnv.PORT c2) = Some (EnvConfig.PORT c1)
  ∧ EnvConfig.NODE_ENV c1 = ConfigEnv.NODE_ENV c2
  ∧ EnvConfig.MONGO_URI c1 = ConfigEnv.MONGO_URI c2
  ∧ EnvConfig.ALLOWED_ORIGINS c1 = ConfigEnv.ALLOWED_ORIGINS c2
  ∧ EnvConfig.RATE_LIMIT_WINDOW_MS c1 = ConfigEnv.RATE_LIMIT_WINDOW_MS c2
  ∧ EnvConfig.RATE_LIMIT_MAX_REQUESTS c1 = ConfigEnv.RATE_LIMIT_MAX_REQUESTS c2
  ∧ EnvConfig.SMTP_HOST c1 = ConfigEnv.SMTP_HOST c2
  ∧ Js.parseInt10 (EnvConfig.SMTP_PORT c1) = ConfigEnv.SMTP_PORT c2
  ∧ String.eqb (EnvConfig.SMTP_SECURE c1) "true" = ConfigEnv.SMTP_SECURE c2
  ∧ EnvConfig.SMTP_USER c1 = ConfigEnv.SMTP_USER c2
  ∧ EnvConfig.SMTP_PASS c1 = ConfigEnv.SMTP_PASS c2
  ∧ EnvConfig.BETTER_AUTH_SECRET c1 = ConfigEnv.BETTER_AUTH_SECRET c2
  ∧ EnvConfig.FRONTEND_URL c1 = ConfigEnv.FRONTEND_URL c2.
Proof.
  intros H1 H2.
  unfold EnvConfig.load in H1. invert_binds H1. injection H1 as <-.
  unfold ConfigEnv.load, ConfigEnv.SMTP_FROM_of in H2. invert_binds H2.
  injection H2 as <-.
  match goal with
  | H : EnvConfig.getPort env = Ok _ |- _ => apply getPort_parse in H as Hport
  end.
  resolve_reads. cbn [default]. subst.
  cbn [EnvConfig.PORT EnvConfig.NODE_ENV EnvConfig.MONGO_URI
       EnvConfig.ALLOWED_ORIGINS EnvConfig.RATE_LIMIT_WINDOW_MS
       EnvConfig.RATE_LIMIT_MAX_REQUESTS EnvConfig.SMTP_HOST
       EnvConfig.SMTP_PORT EnvConfig.SMTP_SECURE EnvConfig.SMTP_USER
       EnvConfig.SMTP_PASS EnvConfig.BETTER_AUTH_SECRET EnvConfig.FRONTEND_URL
       ConfigEnv.PORT ConfigEnv.NODE_ENV ConfigEnv.MONGO_URI
       ConfigEnv.ALLOWED_ORIGINS ConfigEnv.RATE_LIMIT_WINDOW_MS
       ConfigEnv.RATE_LIMIT_MAX_REQUESTS ConfigEnv.SMTP_HOST
       ConfigEnv.SMTP_PORT ConfigEnv.SMTP_SECURE ConfigEnv.SMTP_USER
       ConfigEnv.SMTP_PASS ConfigEnv.BETTER_AUTH_SECRET ConfigEnv.FRONTEND_URL].
  repeat split; try done.
  - match goal with
    | He : env !! "MONGO_URI" = Some ?a, Hb : env !! "MONGO_URI" = Some ?b,
      Hne : ?b ≠ "" |- ?a = _ =>
        rewrite He in Hb; injection Hb as <-;
        by rewrite (or_str_truthy _ _ _ He Hne)
    end.
  - destruct (env !! "ALLOWED_ORIGINS") as [v' |]; [| reflexivity]. cbn.
    destruct (String.eqb v' ""); reflexivity.
  - match goal with
    | He : env !! "BETTER_AUTH_SECRET" = Some ?a,
      Hb : env !! "BETTER_AUTH_SECRET" = Some ?b,
      Hne : ?b ≠ "" |- ?a = _ =>
        rewrite He in Hb; injection Hb as <-;
        by rewrite (or_str_truthy _ _ _ He Hne)
    end.
Qed.

Lemma modules_agree_when_both_load_witness :
  ∃ c1 c2, EnvConfig.load env_port_8080 = Ok c1
           ∧ ConfigEnv.load env_port_8080 = Ok c2
           ∧ Js.parseInt10 (ConfigEnv.PORT c2) = Some (EnvConfig.PORT c1)
           ∧ EnvConfig.ALLOWED_ORIGINS c1 = ConfigEnv.ALLOWED_ORIGINS c2.
Proof.
  destruct (EnvConfig.load env_port_8080) as [c1 | e1] eqn:H1;
    [| vm_compute in H1; discriminate H1].
  destruct (ConfigEnv.load env_port_8080) as [c2 | e2] eqn:H2;
    [| vm_compute in H2; discriminate H2].
  exists c1, c2. split; [reflexivity |]. split; [reflexivity |].
  pose proof (modules_agree_when_both_load env_port_8080 c1 c2 H1 H2) as H.
  split; [exact (proj1 H) | exact (proj1 (proj2 (proj2 (proj2 H))))].
Defined.

(** X6: on an environment where both modules load, their SMTP_FROM values
    are the same exactly when SMTP_FROM is set and not empty, or SMTP_USER
    happens to be "noreply@yourapp.com". *)
Theorem SMTP_FROM_agree_iff (env : Env)
    (c1 : EnvConfig.Config) (c2 : ConfigEnv.Config) :
  EnvConfig.load env = Ok c1 → ConfigEnv.load env = Ok c2 →
  (EnvConfig.SMTP_FROM c1 = Some (ConfigEnv.SMTP_FROM c2)
   ↔ Js.truthy (env !! "SMTP_FROM") = true
     ∨ env !! "SMTP_USER" = Some "noreply@yourapp.com").
Proof.
  intros H1 H2.
  pose proof (config_load_needs env c2 H2 "SMTP_USER" ltac:(cbn; tauto)) as Hu.
  apply truthy_true_iff in Hu as (u & Hu & Hune).
  apply EnvConfigFacts.utils_load_SMTP_FROM in H1.
  apply ConfigEnvFacts.config_load_SMTP_FROM in H2.
  apply config_getEnvVariable_value in H2 as [H2 _]. cbn [default] in H2.
  rewrite H1, H2. unfold EnvConfig.SMTP_FROM_of, Js.or.
  destruct (Js.truthy (env !! "SMTP_FROM")) eqn:Ht.
  - apply truthy_true_iff in Ht as (v & Hv & Hvne).
    rewrite (or_str_truthy _ _ _ Hv Hvne), Hv. split; [by left | done].
  - rewrite (or_str_falsy _ _ Ht), Hu. split.
    + intros [= ->]. by right.
    + intros [| [= ->]]; done.
Qed.

Lemma SMTP_FROM_agree_iff_witness :
  ∃ c1 c2, EnvConfig.load (<["SMTP_FROM" := "mail@example.com"]> env_example)
           = Ok c1
           ∧ ConfigEnv.load (<["SMTP_FROM" := "mail@example.com"]> env_example)
             = Ok c2
           ∧ EnvConfig.SMTP_FROM c1 = Some (ConfigEnv.SMTP_FROM c2).
Proof.
  destruct (EnvConfig.load (<["SMTP_FROM" := "mail@example.com"]> env_example))
    as [c1 | e1] eqn:H1; [| vm_compute in H1; discriminate H1].
  destruct (ConfigEnv.load (<["SMTP_FROM" := "mail@example.com"]> env_example))
    as [c2 | e2] eqn:H2; [| vm_compute in H2; discriminate H2].
  exists c1, c2. split; [reflexivity |]. split; [reflexivity |].
  apply (proj2 (SMTP_FROM_agree_iff _ c1 c2 H1 H2)). left. reflexivity.
Defined.





(** X8: in both modules the list ALLOWED_ORIGINS is never empty, and
    joining its entries with commas gives back the text it was split from:
    the value of the variable when that is set and not empty, and
    "http://localhost:3000,http://localhost:3001" otherwise.  Nothing is
    trimmed or dropped. *)
Theorem ALLOWED_ORIGINS_round_trip (env : Env) :
  (∀ c, EnvConfig.load env = Ok c →
        EnvConfig.ALLOWED_ORIGINS c ≠ []
        ∧ Js.join_comma (EnvConfig.ALLOWED_ORIGINS c)
          = Js.or_str (env !! "ALLOWED_ORIGINS")
              "http://localhost:3000,http://localhost:3001")
  ∧ (∀ c, ConfigEnv.load env = Ok c →
          ConfigEnv.ALLOWED_ORIGINS c ≠ []
          ∧ Js.join_comma (ConfigEnv.ALLOWED_ORIGINS c)
            = Js.or_str (env !! "ALLOWED_ORIGINS")
                "http://localhost:3000,http://localhost:3001").
Proof.
  split.
  - intros c H. unfold EnvConfig.load in H. invert_binds H.
    injection H as <-. cbn [EnvConfig.ALLOWED_ORIGINS].
    destruct (Js.truthy (env !! "ALLOWED_ORIGINS")) eqn:Ht.
    + apply truthy_true_iff in Ht as (v' & Hv' & Hne).
      rewrite (or_str_truthy _ _ _ Hv' Hne), Hv'. cbn [default].
      split; [apply split_comma_aux_nonempty | apply split_comma_join].
    + rewrite (or_str_falsy _ _ Ht). split; [done | reflexivity].
  - intros c H. unfold ConfigEnv.load, ConfigEnv.SMTP_FROM_of in H.
    invert_binds H. injection H as <-. resolve_reads.
    cbn [ConfigEnv.ALLOWED_ORIGINS default].
    split; [apply split_comma_aux_nonempty | apply split_comma_join].
Qed.

Lemma ALLOWED_ORIGINS_round_trip_witness :
  ∃ c, ConfigEnv.load (<["ALLOWED_ORIGINS" := "https://a.example, https://b.example"]>
                         env_example) = Ok c
       ∧ ConfigEnv.ALLOWED_ORIGINS c = ["https://a.example"; " https://b.example"]
       ∧ Js.join_comma (ConfigEnv.ALLOWED_ORIGINS c)
         = "https://a.example, https://b.example".
Proof.
  destruct (ConfigEnv.load
              (<["ALLOWED_ORIGINS" := "https://a.example, https://b.example"]>
                 env_example)) as [c | e] eqn:H;
    [| vm_compute in H; discriminate H].
  exists c. split; [reflexivity |].
  split; [vm_compute in H; by injection H as <- |].
  exact (proj2 (proj2 (ALLOWED_ORIGINS_round_trip _) c H)).
Defined.

(* ===================================================================== *)
(** ** More on the database connector and the start-up *)
(* ===================================================================== *)

(** X9: [connectDb] never rejects, although its comment says it does: it
    returns when the connection succeeds, and only then, and it ends the
    process with code 1 when the connection fails, and only then.  A
    returning call leaves no exit on the trace. *)
Theorem connectDb_never_rejects (connect_result : nat → string → outcome unit)
    (connection_name dbUrl : string) (w : world) :
  (∀ e, fst (Database.connectDb connect_result connection_name dbUrl w)
        ≠ Raised e)
  ∧ (fst (Database.connectDb connect_result connection_name dbUrl w)
       = Returned tt
     ↔ connect_result (connect_calls w) dbUrl = Ok tt)
  ∧ (fst (Database.connectDb connect_result connection_name dbUrl w)
       = Exited 1
     ↔ ∃ e, connect_result (connect_calls w) dbUrl = Throw e)
  ∧ (connect_result (connect_calls w) dbUrl = Ok tt →
     trace (snd (Database.connectDb connect_result connection_name dbUrl w))
     = (trace w ++ [EvConnect dbUrl;
                    EvLog "MongoDB connected successfully!";
                    EvLog ("Database: " +:+ connection_name)])%list).
Proof.
  destruct (connect_result (connect_calls w) dbUrl) as [[] | e0] eqn:H.
  - rewrite (connectDb_success connect_result connection_name dbUrl w H).
    cbn [fst snd trace].
    split; [done |]. split; [done |]. split; [| done].
    split; [done | by intros [e He]].
  - rewrite (connectDb_failure connect_result connection_name dbUrl w e0 H).
    unfold failed_connect. cbn [fst snd trace].
    split; [done |]. split; [done |]. split; [| done].
    split; [by eexists | done].
Qed.

Lemma connectDb_never_rejects_witness :
  accept_connection (connect_calls initial_world) "mongodb://db/app" = Ok tt
  ∧ trace (snd (Database.connectDb accept_connection "app" "mongodb://db/app"
                  initial_world))
    = [EvConnect "mongodb://db/app";
       EvLog "MongoDB connected successfully!";
       EvLog "Database: app"].
Proof.
  split; [reflexivity |].
  exact (proj2 (proj2 (proj2 (connectDb_never_rejects accept_connection "app"
                                "mongodb://db/app" initial_world)))
           eq_refl).
Defined.

Lemma disconnectDb_always_returns_aux (close_result : outcome unit) (w : world) :
  Database.disconnectDb close_result w
  = (Returned tt,
     mkWorld
       (trace w ++
          [EvClose;
           match close_result with
           | Ok _ => EvLog "MongoDB disconnected gracefully"
           | Throw e => EvError "Error disconnecting from MongoDB:" e
           end])
       (connect_calls w)).
Proof.
  unfold Database.disconnectDb, try_catch, bind,
    Database.mongoose_connection_close, console_log, console_error, emit.
  destruct close_result as [[] | e]; cbn; by rewrite <- app_assoc.
Qed.

(** X10: [disconnectDb] always returns: it closes the connection once, and
    when closing throws it logs the error and swallows it; it neither
    throws nor ends the process. *)
Theorem disconnectDb_always_returns (close_result : outcome unit) (w : world) :
  Database.disconnectDb close_result w
  = (Returned tt,
     mkWorld
       (trace w ++
          [EvClose;
           match close_result with
           | Ok _ => EvLog "MongoDB disconnected gracefully"
           | Throw e => EvError "Error disconnecting from MongoDB:" e
           end])
       (connect_calls w)).
Proof. apply disconnectDb_always_returns_aux. Qed.

(** X11: the SIGINT handler of the database module has no [try]: when
    closing the connection succeeds it logs and exits with code 0, and when
    closing throws, the exception leaves the handler and the handler does
    not exit the process. *)
Theorem sigint_handler_outcomes (close_result : outcome unit) (w : world) :
  Database.sigint_handler close_result w
  = match close_result with
    | Ok _ =>
        (Exited 0,
         mkWorld
           (trace w ++
              [EvClose;
               EvLog "Mongoose connection closed due to application termination";
               EvExit 0])
           (connect_calls w))
    | Throw e => (Raised e, mkWorld (trace w ++ [EvClose]) (connect_calls w))
    end.
Proof.
  unfold Database.sigint_handler, bind, Database.mongoose_connection_close,
    console_log, process_exit, emit.
  destruct close_result as [[] | e]; cbn; [by rewrite <- !app_assoc | done].
Qed.

(** X12: the callback that the graceful shutdown gives to [server.close]
    always ends the process with code 0, also when closing the database
    throws: [disconnectDb] swallows that error, so the [catch] of the
    callback, with its exit code 1, is never entered. *)
Theorem on_server_closed_exits_0 (close_result : outcome unit) (w : world) :
  GracefulShutdown.on_server_closed close_result w
  = (Exited 0,
     mkWorld
       (trace w ++
          [EvClose;
           match close_result with
           | Ok _ => EvLog "MongoDB disconnected gracefully"
           | Throw e => EvError "Error disconnecting from MongoDB:" e
           end;
           EvLog "All connections closed. Exiting process.";
           EvExit 0])
       (connect_calls w)).
Proof.
  unfold GracefulShutdown.on_server_closed, try_catch, bind.
  rewrite disconnectDb_always_returns_aux.
  unfold console_log, process_exit, emit. cbn. by rewrite <- !app_assoc.
Qed.

(** X13: [startServer] never throws.  It logs, runs [createApp], and then:
    if [createApp] returns and [listen] accepts the configured PORT, it
    listens on it, registers the four shutdown handlers and returns; if
    [createApp] returns and [listen] throws, or if [createApp] throws, it
    logs the error and ends the process with code 1, and no port is bound;
    if [createApp] has ended the process (as [connectDb] does when the
    database refuses the connection), nothing more happens. *)
Theorem startServer_outcomes (App : Type) (createApp : Proc App)
    (listen_result : port_arg → outcome unit)
    (Config : Type) (PORT : Config → port_arg) (cfg : Config) (w : world) :
  (∀ e, fst (Server.startServer App createApp listen_result Config PORT cfg w)
        ≠ Raised e)
  ∧ (∀ app w1, createApp (server_starting w) = (Returned app, w1) →
       listen_result (PORT cfg) = Ok tt →
       Server.startServer App createApp listen_result Config PORT cfg w
       = (Returned tt, server_listening (PORT cfg) w1))
  ∧ (∀ app w1 e, createApp (server_starting w) = (Returned app, w1) →
       listen_result (PORT cfg) = Throw e →
       Server.startServer App createApp listen_result Config PORT cfg w
       = failed_start e w1)
  ∧ (∀ e w1, createApp (server_starting w) = (Raised e, w1) →
       Server.startServer App createApp listen_result Config PORT cfg w
       = failed_start e w1)
  ∧ (∀ code w1, createApp (server_starting w) = (Exited code, w1) →
       Server.startServer App createApp listen_result Config PORT cfg w
       = (Exited code, w1)).
Proof.
  unfold Server.startServer, try_catch, bind, console_log, console_error,
    process_exit, Server.app_listen, Server.setupGracefulShutdown, process_on,
    server_listening, server_starting, failed_start.
  cbn [fst snd].
  destruct (createApp (emit (EvLog "Starting server...") w))
    as [[app | e0 | code] w1] eqn:Happ.
  - destruct (listen_result (PORT cfg)) as [[] | el] eqn:Hl; unfold emit; cbn.
    + split; [done |]. split; [| repeat split; intros; discriminate].
      intros app' w1' [= <- <-] _. by rewrite <- !app_assoc.
    + split; [done |]. split; [intros; discriminate |].
      split; [| split; intros; discriminate].
      intros app' w1' e [= <- <-] [= <-]. by rewrite <- !app_assoc.
  - unfold emit; cbn. split; [done |]. split; [intros; discriminate |].
    split; [intros; discriminate |]. split; [| intros; discriminate].
    intros e w1' [= <- <-]. by rewrite <- !app_assoc.
  - cbn. split; [done |]. split; [intros; discriminate |].
    split; [intros; discriminate |]. split; [intros; discriminate |].
    by intros code' w1' [= <- <-].
Qed.

Lemma startServer_outcomes_witness :
  (createApp_ready (server_starting world_after_imports)
     = (Returned tt, server_starting world_after_imports)
   ∧ listen_accepts (PortNumber 5000) = Ok tt
   ∧ Server.startServer unit createApp_ready listen_accepts unit
       (λ _, PortNumber 5000) tt world_after_imports
     = (Returned tt,
        mkWorld [EvOn "SIGINT"; EvLog "Starting server...";
                 EvListen (PortNumber 5000);
                 EvOn "SIGTERM"; EvOn "SIGINT"; EvOn "uncaughtException";
                 EvOn "unhandledRejection"] 0))
  ∧ (listen_refuses (PortString "70000")
       = Throw (OtherError "ERR_SOCKET_BAD_PORT")
     ∧ Server.startServer unit createApp_ready listen_refuses unit
         (λ _, PortString "70000") tt world_after_imports
       = (Exited 1,
          mkWorld [EvOn "SIGINT"; EvLog "Starting server...";
                   EvError "Failed to start server:"
                     (OtherError "ERR_SOCKET_BAD_PORT");
                   EvExit 1] 0))
  ∧ (createApp_throws (server_starting world_after_imports)
       = (Raised (OtherError "cannot build app"),
          server_starting world_after_imports)
     ∧ fst (Server.startServer unit createApp_throws listen_accepts unit
              (λ _, PortNumber 5000) tt world_after_imports) = Exited 1)
  ∧ (createApp_refused (server_starting world_after_imports)
       = (Exited 1,
          mkWorld [EvOn "SIGINT"; EvLog "Starting server...";
                   EvConnect "mongodb://db/app";
                   EvError "Error connecting to MongoDB:"
                     (OtherError "ECONNREFUSED");
                   EvExit 1] 1)
     ∧ binds_port
         (trace (snd (Server.startServer unit createApp_refused listen_accepts
                        unit (λ _, PortNumber 5000) tt world_after_imports)))
       = false).
Proof.
  pose proof (startServer_outcomes unit createApp_ready listen_accepts unit
                (λ _, PortNumber 5000) tt world_after_imports)
    as (_ & H1 & _).
  pose proof (startServer_outcomes unit createApp_ready listen_refuses unit
                (λ _, PortString "70000") tt world_after_imports)
    as (_ & _ & H2 & _).
  pose proof (startServer_outcomes unit createApp_throws listen_accepts unit
                (λ _, PortNumber 5000) tt world_after_imports)
    as (_ & _ & _ & H3 & _).
  pose proof (startServer_outcomes unit createApp_refused listen_accepts unit
                (λ _, PortNumber 5000) tt world_after_imports)
    as (_ & _ & _ & _ & H4).
  split; [| split; [| split]].
  - split; [reflexivity |]. split; [reflexivity |].
    exact (H1 _ _ eq_refl eq_refl).
  - split; [reflexivity |]. exact (H2 _ _ _ eq_refl eq_refl).
  - split; [reflexivity |]. rewrite (H3 _ _ eq_refl). reflexivity.
  - split; [reflexivity |]. rewrite (H4 _ _ eq_refl). reflexivity.
Defined.

(* ===================================================================== *)
(** ** More on [authenticateUser] *)
(* ===================================================================== *)

(** X14: the middleware calls [next()] without an error exactly when the
    resolution returns a session that has a user.  The request then
    continues with its headers and with [req.user] set to the id, email and
    name of that user, replacing whatever [req.user] held. *)
Theorem authenticateUser_next_iff
    (getSession : gmap string string → outcome (option AuthMiddleware.Session))
    (req : AuthMiddleware.Request) :
  (snd (AuthMiddleware.authenticateUser getSession req) = AuthMiddleware.Next
   ↔ ∃ s u, getSession (AuthMiddleware.headers req) = Ok (Some s)
            ∧ AuthMiddleware.user s = Some u)
  ∧ ∀ s u, getSession (AuthMiddleware.headers req) = Ok (Some s) →
           AuthMiddleware.user s = Some u →
           AuthMiddleware.authenticateUser getSession req
           = (AuthMiddleware.mkRequest (AuthMiddleware.headers req)
                (Some (AuthMiddleware.mkIdentity (AuthMiddleware.id u)
                         (AuthMiddleware.email u) (AuthMiddleware.name u))),
              AuthMiddleware.Next).
Proof.
  split; [| intros s u; apply authenticateUser_authenticated].
  split.
  - destruct (getSession (AuthMiddleware.headers req)) as [[s |] | e] eqn:Hs.
    + destruct (AuthMiddleware.user s) as [u |] eqn:Hu; [by eauto |].
      by rewrite (authenticateUser_no_user getSession req s Hs Hu).
    + by rewrite (authenticateUser_null getSession req Hs).
    + rewrite (authenticateUser_throw getSession req e Hs). done.
  - intros (s & u & Hs & Hu).
    by rewrite (authenticateUser_authenticated getSession req s u Hs Hu).
Qed.

Lemma authenticateUser_next_iff_witness :
  getSession_alice (AuthMiddleware.headers request_example)
    = Ok (Some (AuthMiddleware.mkSession Js.JNull
                  (Some (AuthMiddleware.mkSessionUser "u1" "a@b.com" "Alice"))))
  ∧ AuthMiddleware.authenticateUser getSession_alice request_example
    = (AuthMiddleware.mkRequest (AuthMiddleware.headers request_example)
         (Some (AuthMiddleware.mkIdentity "u1" "a@b.com" "Alice")),
       AuthMiddleware.Next).
Proof.
  split; [reflexivity |].
  exact (proj2 (authenticateUser_next_iff getSession_alice request_example)
           _ _ eq_refl eq_refl).
Defined.

(** X15: the middleware never changes the headers; whatever it passes to
    [next] as an error is an [ErrorResponse], never a raw exception of the
    authentication library; and when it passes an error the request is
    exactly as it came in, so [req.user] changes only together with a plain
    [next()]. *)
Theorem authenticateUser_error_is_ErrorResponse
    (getSession : gmap string string → outcome (option AuthMiddleware.Session))
    (req : AuthMiddleware.Request) :
  AuthMiddleware.headers (fst (AuthMiddleware.authenticateUser getSession req))
    = AuthMiddleware.headers req
  ∧ (∀ e, snd (AuthMiddleware.authenticateUser getSession req)
          = AuthMiddleware.NextError e →
          instanceof_ErrorResponse e = true
          ∧ fst (AuthMiddleware.authenticateUser getSession req) = req)
  ∧ (AuthMiddleware.req_user
       (fst (AuthMiddleware.authenticateUser getSession req))
     ≠ AuthMiddleware.req_user req →
     snd (AuthMiddleware.authenticateUser getSession req) = AuthMiddleware.Next).
Proof.
  destruct (getSession (AuthMiddleware.headers req)) as [[s |] | e0] eqn:Hs.
  - destruct (AuthMiddleware.user s) as [u |] eqn:Hu.
    + rewrite (authenticateUser_authenticated getSession req s u Hs Hu).
      cbn. split; [done |]. split; [intros; discriminate | done].
    + rewrite (authenticateUser_no_user getSession req s Hs Hu). cbn.
      split; [done |]. split; [by intros e [= <-] | done].
  - rewrite (authenticateUser_null getSession req Hs). cbn.
    split; [done |]. split; [by intros e [= <-] | done].
  - rewrite (authenticateUser_throw getSession req e0 Hs). cbn.
    split; [done |]. split; [| done].
    intros e [= <-]. by destruct e0.
Qed.

Lemma authenticateUser_error_is_ErrorResponse_witness :
  snd (AuthMiddleware.authenticateUser getSession_library_error request_example)
    = AuthMiddleware.NextError (AppError AuthMiddleware.unauthorized)
  ∧ instanceof_ErrorResponse (AppError AuthMiddleware.unauthorized) = true
  ∧ fst (AuthMiddleware.authenticateUser getSession_library_error
           request_example) = request_example.
Proof.
  split; [reflexivity |].
  exact (proj1 (proj2 (authenticateUser_error_is_ErrorResponse
                         getSession_library_error request_example))
           (AppError AuthMiddleware.unauthorized) eq_refl).
Defined.

(* ===================================================================== *)
(** ** More on the health probes *)
(* ===================================================================== *)

(** X16: GET /health and GET /health/ready always answer with the same
    status code: 200 when the connection state is read and is 1, and 503 in
    every other case. *)
Theorem health_and_ready_agree (rt : Health.Runtime) :
  Health.status (Health.health rt) = Health.status (Health.ready rt)
  ∧ (Health.status (Health.health rt) = 200 ↔ Health.readyState rt = Ok 1)
  ∧ (Health.status (Health.health rt) = 503 ↔ Health.readyState rt ≠ Ok 1).
Proof.
  unfold Health.health, Health.ready.
  destruct (Health.readyState rt) as [state | e]; cbn.
  - destruct (Z.eqb_spec state 1) as [-> | Hne]; cbn.
    + split; [done |]. split; split; done.
    + split; [done |]. split; split; try done.
      * by intros [= ->].
      * by intros _ [= ->].
  - split; [done |]. split; split; done.
Qed.

(** X17: the body of GET /health tells the three states apart:
    [services.database] is "connected" exactly when the connection state is
    read and is 1, "disconnected" exactly when it is read and is not 1, and
    "unknown" exactly when the check throws; [message] is "Error checking
    services" exactly in that last case and "OK" otherwise.  The body always
    carries the uptime, the timestamp, and as [environment] the value of
    NODE_ENV, or "development" when that is missing. *)
Theorem health_body_reports_state (rt : Health.Runtime) :
  (Js.get "services" (Health.body (Health.health rt)) ≫= Js.get "database"
     = Some (Js.JStr "connected")
   ↔ Health.readyState rt = Ok 1)
  ∧ (Js.get "services" (Health.body (Health.health rt)) ≫= Js.get "database"
       = Some (Js.JStr "disconnected")
     ↔ ∃ state, Health.readyState rt = Ok state ∧ state ≠ 1)
  ∧ (Js.get "services" (Health.body (Health.health rt)) ≫= Js.get "database"
       = Some (Js.JStr "unknown")
     ↔ ∃ e, Health.readyState rt = Throw e)
  ∧ Js.get "message" (Health.body (Health.health rt))
    = Some (Js.JStr (if is_Throw (Health.readyState rt)
                     then "Error checking services" else "OK"))
  ∧ Js.get "uptime" (Health.body (Health.health rt))
    = Some (Js.JNum (Health.uptime rt))
  ∧ Js.get "timestamp" (Health.body (Health.health rt))
    = Some (Js.JNum (Health.timestamp rt))
  ∧ Js.get "environment" (Health.body (Health.health rt))
    = Some (Js.JStr (Js.or_str (Health.env rt !! "NODE_ENV") "development")).
Proof.
  unfold Health.health.
  destruct (Health.readyState rt) as [state | e]; cbn.
  - destruct (Z.eqb_spec state 1) as [-> | Hne]; cbn.
    + repeat split; try done.
      * by intros (st & [= <-] & Hst).
      * by intros [e He].
    + repeat split; try done.
      * by intros [= ->].
      * by exists state.
      * by intros [e He].
  - repeat split; try done.
    + by intros (st & Hst & _).
    + by eexists.
Qed.

(* ===================================================================== *)
(** ** The environment modules and the start-up together *)
(* ===================================================================== *)




